(** * ChatAgent: the chat Durable Object of [src/agent.ts]

    A shallow embedding of the [ChatAgent] class: its request router
    ([fetch]), the hydration of the in-memory message array from the SQL
    table ([initializeDatabase]), the three handlers ([handleChat],
    [handleGetHistory], [handleClear]), the prompt construction and response
    normalisation of [generateAIResponse], and [saveMessage].

    The object's fields and the platform state it touches are threaded
    through a state-and-exception monad; a thrown exception keeps the state
    changes made before it, as in JavaScript. *)

From Stdlib Require Import List ZArith String Bool Arith Lia Sorted Permutation.
Import ListNotations.

Local Open Scope string_scope.
Local Open Scope list_scope.
Local Set Warnings "-register-all".

(** ** Data *)

(** [Message.role]. *)
Inductive Role : Type := user | assistant | system.

(** The run-time values that reach a [content] field or a [response]
    property: [undefined], [null] or a string.  A [message] that is a
    number, a boolean, an array or an object is not modelled: what is
    stated of a send is stated for a body whose [message] is a string,
    [undefined] or [null], and the statements say so. *)
Inductive jsval : Type :=
| VUndefined
| VNull
| VString (s : string).

(** A thrown value: an [Error] with its [message], or anything else. *)
Inductive exn : Type :=
| JsError (message : string)
| JsThrown.

(** [interface Message]. *)
Record Message : Type := mkMessage {
  role : Role;
  content : jsval;
  timestamp : Z
}.

(** A row of the table [messages(id, role TEXT NOT NULL, content TEXT NOT
    NULL, timestamp INTEGER NOT NULL)]; the list of rows is kept in [id]
    order, which [AUTOINCREMENT] makes the insertion order. *)
Record Row : Type := mkRow {
  row_role : Role;
  row_content : string;
  row_timestamp : Z
}.

(** The [{role, content}] objects handed to the model. *)
Record ChatTurn : Type := mkTurn {
  turn_role : Role;
  turn_content : jsval
}.

(** What [env.AI.run] resolves to: a bare string, or an object whose
    [response] property is read ([VUndefined] when it has none).  The
    capability returns one or the other; it does not resolve to [null] or
    [undefined]. *)
Inductive ai_response : Type :=
| AiText (s : string)
| AiObject (response : jsval).

Inductive ai_outcome : Type :=
| AiReturns (r : ai_response)
| AiThrows (e : exn).

(** JSON documents, as [JSON.stringify] serialises them. *)
Inductive json : Type :=
| JNull
| JBool (b : bool)
| JNum (n : Z)
| JStr (s : string)
| JArr (items : list json)
| JObj (fields : list (string * json)).

Inductive resp_body : Type :=
| NoBody
| TextBody (s : string)
| JsonBody (j : json).

Record Response : Type := mkResponse {
  status : Z;
  headers : list (string * string);
  body : resp_body
}.

(** Line 85, [const { message } = await request.json()]: either the
    statement throws ([request.json()] rejects on a missing or malformed
    body, or the parsed value is [null] and cannot be destructured), or it
    binds [message] to the property of the parsed value, [VUndefined] when
    the value has no such property. *)
Inductive body_outcome : Type :=
| BodyThrows (e : exn)
| BodyValue (message : jsval).

Record Request : Type := mkRequest {
  method : string;
  pathname : string;
  request_json : body_outcome
}.

(** The platform the object runs on.  [sql_fault k] tells whether the
    [k]-th call of [sql.exec] fails in the storage layer, [date_now k] is
    the [k]-th reading of [Date.now()], and [ai_run k msgs] is what the
    [k]-th call of [env.AI.run] does with the messages [msgs]. *)
Record Platform : Type := mkPlatform {
  sql_fault : nat -> option exn;
  date_now : nat -> Z;
  ai_run : nat -> list ChatTurn -> ai_outcome
}.

(** The object and its storage: [this.messages], the [messages] table
    ([None] before [CREATE TABLE]), the number of [sql.exec] calls and of
    [Date.now()] readings made so far, and the message lists passed to
    [env.AI.run] so far. *)
Record World : Type := mkWorld {
  messages : list Message;
  table : option (list Row);
  execs : nat;
  ticks : nat;
  ai_calls : list (list ChatTurn)
}.

Definition set_messages (ms : list Message) (w : World) : World :=
  mkWorld ms (table w) (execs w) (ticks w) (ai_calls w).

Definition set_table (t : option (list Row)) (w : World) : World :=
  mkWorld (messages w) t (execs w) (ticks w) (ai_calls w).

Definition count_exec (w : World) : World :=
  mkWorld (messages w) (table w) (S (execs w)) (ticks w) (ai_calls w).

Definition count_tick (w : World) : World :=
  mkWorld (messages w) (table w) (execs w) (S (ticks w)) (ai_calls w).

Definition record_ai_call (msgs : list ChatTurn) (w : World) : World :=
  mkWorld (messages w) (table w) (execs w) (ticks w) (ai_calls w ++ [msgs]).

(** The rows of the durable log, in insertion order. *)
Definition rows (w : World) : list Row :=
  match table w with
  | Some rs => rs
  | None => []
  end.

(** ** The monad *)

Inductive outcome (A : Type) : Type :=
| Returned (a : A)
| Thrown (e : exn).

Arguments Returned {A} a.
Arguments Thrown {A} e.

Definition M (A : Type) : Type := World -> outcome A * World.

Definition ret {A : Type} (a : A) : M A := fun w => (Returned a, w).

Definition throw {A : Type} (e : exn) : M A := fun w => (Thrown e, w).

Definition bind {A B : Type} (c : M A) (k : A -> M B) : M B :=
  fun w =>
    match c w with
    | (Returned a, w') => k a w'
    | (Thrown e, w') => (Thrown e, w')
    end.

(** [try { c } catch (error) { h error }]. *)
Definition try_catch {A : Type} (c : M A) (h : exn -> M A) : M A :=
  fun w =>
    match c w with
    | (Returned a, w') => (Returned a, w')
    | (Thrown e, w') => h e w'
    end.

Definition get : M World := fun w => (Returned w, w).

Definition modify (f : World -> World) : M unit := fun w => (Returned tt, f w).

Notation "x <- c1 ;; c2" := (bind c1 (fun x => c2))
  (at level 61, c1 at next level, right associativity).
Notation "c1 ;;; c2" := (bind c1 (fun _ => c2))
  (at level 61, right associativity).

(** ** The SQL layer *)

Inductive stmt : Type :=
| CreateTableIfNotExists
| SelectOrderByTimestamp
| InsertMessage (r : Role) (c : jsval) (t : Z)
| DeleteFromMessages.

Definition no_such_table : exn := JsError "no such table: messages".

Definition not_null_failed : exn :=
  JsError "NOT NULL constraint failed: messages.content".

(** [ORDER BY timestamp ASC] over the rows in [id] order: a stable
    insertion sort, so rows of equal timestamp come out in insertion
    order. *)
Fixpoint insert_row (r : Row) (l : list Row) : list Row :=
  match l with
  | [] => [r]
  | x :: xs =>
      if (row_timestamp r <? row_timestamp x)%Z
      then r :: x :: xs
      else x :: insert_row r xs
  end.

Definition order_by_timestamp (l : list Row) : list Row :=
  fold_left (fun acc r => insert_row r acc) l [].

(** [.slice(-n)]: the last [n] elements, all of them when there are fewer. *)
Definition slice_last {A : Type} (n : nat) (l : list A) : list A :=
  skipn (List.length l - n) l.

Definition message_of_row (r : Row) : Message :=
  mkMessage (row_role r) (VString (row_content r)) (row_timestamp r).

Definition row_of (r : Role) (s : string) (t : Z) : Row := mkRow r s t.

Definition role_text (r : Role) : string :=
  match r with
  | user => "user"
  | assistant => "assistant"
  | system => "system"
  end.

(** [JSON.stringify] of a [Message]: a property whose value is [undefined]
    is left out. *)
Definition json_of_message (m : Message) : json :=
  JObj ([("role", JStr (role_text (role m)))]
        ++ match content m with
           | VUndefined => []
           | VNull => [("content", JNull)]
           | VString s => [("content", JStr s)]
           end
        ++ [("timestamp", JNum (timestamp m))]).

Definition corsHeaders : list (string * string) :=
  [("Access-Control-Allow-Origin", "*");
   ("Access-Control-Allow-Methods", "GET, POST, OPTIONS");
   ("Access-Control-Allow-Headers", "Content-Type")].

(** [new Response(JSON.stringify(j), { status, headers: { "Content-Type":
    "application/json", ...cors } })]. *)
Definition json_response (st : Z) (cors : list (string * string)) (j : json)
  : Response :=
  mkResponse st (("Content-Type", "application/json") :: cors) (JsonBody j).

Definition system_prompt : string :=
  "You are a helpful AI assistant embedded in a blog. Help users with questions about the blog content, technology, or general topics. Be friendly and concise.".

Definition fallback_text : string :=
  "I apologize, but I couldn't generate a response.".

Definition trouble_text : string :=
  "I'm having trouble connecting to the AI service. Please try again.".

(** JavaScript truthiness on [jsval]: [undefined], [null] and the empty
    string are falsy. *)
Definition truthy (v : jsval) : bool :=
  match v with
  | VUndefined => false
  | VNull => false
  | VString s => negb (s =? "")
  end.

(** [v || d]. *)
Definition js_or (v : jsval) (d : string) : jsval :=
  if truthy v then v else VString d.

(** [error instanceof Error ? error.message : "Unknown error"]. *)
Definition error_text (error : exn) : string :=
  match error with
  | JsError m => m
  | JsThrown => "Unknown error"
  end.

(** Lines 141-154: the message list built for the model from
    [this.messages] and the user's text. *)
Definition build_context (cache : list Message) (userMessage : jsval)
  : list ChatTurn :=
  let recentMessages := slice_last 10 cache in
  [mkTurn system (VString system_prompt)]
  ++ map (fun m => mkTurn (role m) (content m)) recentMessages
  ++ [mkTurn user userMessage].

(** Lines 164-167: what is made of the value the model returned. *)
Definition normalize (response : ai_response) : jsval :=
  match response with
  | AiText s => VString s
  | AiObject r => js_or r fallback_text
  end.

Section Agent.

Variable P : Platform.

(** [this.state.storage.sql.exec(q, ...bindings)].  A binding that is
    [undefined] or [null] is stored as SQL NULL, which the [NOT NULL]
    constraint of the [content] column rejects. *)
Definition sql_exec (q : stmt) : M (list Row) :=
  fun w =>
    let w' := count_exec w in
    match sql_fault P (execs w) with
    | Some e => (Thrown e, w')
    | None =>
        match q with
        | CreateTableIfNotExists =>
            match table w with
            | None => (Returned [], set_table (Some []) w')
            | Some _ => (Returned [], w')
            end
        | SelectOrderByTimestamp =>
            match table w with
            | None => (Thrown no_such_table, w')
            | Some rs => (Returned (order_by_timestamp rs), w')
            end
        | InsertMessage r c t =>
            match table w with
            | None => (Thrown no_such_table, w')
            | Some rs =>
                match c with
                | VString s =>
                    (Returned [], set_table (Some (rs ++ [row_of r s t])) w')
                | _ => (Thrown not_null_failed, w')
                end
            end
        | DeleteFromMessages =>
            match table w with
            | None => (Thrown no_such_table, w')
            | Some _ => (Returned [], set_table (Some []) w')
            end
        end
    end.

(** [Date.now()]. *)
Definition Date_now : M Z :=
  fun w => (Returned (date_now P (ticks w)), count_tick w).

(** [await this.env.AI.run(model, { messages, max_tokens, temperature })]. *)
Definition AI_run (msgs : list ChatTurn) : M ai_response :=
  fun w =>
    let w' := record_ai_call msgs w in
    match ai_run P (List.length (ai_calls w)) msgs with
    | AiReturns r => (Returned r, w')
    | AiThrows e => (Thrown e, w')
    end.

(** ** The methods of [ChatAgent] *)

Definition initializeDatabase : M unit :=
  sql_exec CreateTableIfNotExists ;;;
  results <- sql_exec SelectOrderByTimestamp ;;
  modify (set_messages (map message_of_row results)).

Definition saveMessage (message : Message) : M unit :=
  modify (fun w => set_messages (messages w ++ [message]) w) ;;;
  sql_exec (InsertMessage (role message) (content message) (timestamp message)) ;;;
  ret tt.

(** The [console.error] of the catch branch writes to the operator's log
    only and is left out. *)
Definition generateAIResponse (userMessage : jsval) : M jsval :=
  try_catch
    (w <- get ;;
     let msgs := build_context (messages w) userMessage in
     response <- AI_run msgs ;;
     ret (normalize response))
    (fun error => ret (VString trouble_text)).

Definition chat_success (userMessage assistantMessage : Message) (n : nat)
  : json :=
  JObj [("success", JBool true);
        ("userMessage", json_of_message userMessage);
        ("assistantMessage", json_of_message assistantMessage);
        ("messageCount", JNum (Z.of_nat n))].

Definition chat_failure (error : exn) : json :=
  JObj [("success", JBool false); ("error", JStr (error_text error))].

Definition handleChat (request : Request) (cors : list (string * string))
  : M Response :=
  try_catch
    (message <- match request_json request with
                | BodyThrows e => throw e
                | BodyValue v => ret v
                end ;;
     t <- Date_now ;;
     let userMessage := mkMessage user message t in
     saveMessage userMessage ;;;
     aiResponse <- generateAIResponse message ;;
     t' <- Date_now ;;
     let assistantMessage := mkMessage assistant aiResponse t' in
     saveMessage assistantMessage ;;;
     w <- get ;;
     ret (json_response 200 cors
            (chat_success userMessage assistantMessage (List.length (messages w)))))
    (fun error => ret (json_response 500 cors (chat_failure error))).

Definition history_json (ms : list Message) : json :=
  JObj [("success", JBool true);
        ("messages", JArr (map json_of_message ms));
        ("count", JNum (Z.of_nat (List.length ms)))].

Definition handleGetHistory (cors : list (string * string)) : M Response :=
  w <- get ;;
  ret (json_response 200 cors (history_json (messages w))).

Definition clear_json : json := JObj [("success", JBool true)].

Definition handleClear (cors : list (string * string)) : M Response :=
  sql_exec DeleteFromMessages ;;;
  modify (set_messages []) ;;;
  ret (json_response 200 cors clear_json).

Definition fetch (request : Request) : M Response :=
  initializeDatabase ;;;
  if method request =? "OPTIONS" then
    ret (mkResponse 200 corsHeaders NoBody)
  else if (pathname request =? "/chat") && (method request =? "POST") then
    handleChat request corsHeaders
  else if (pathname request =? "/history") && (method request =? "GET") then
    handleGetHistory corsHeaders
  else if (pathname request =? "/clear") && (method request =? "POST") then
    handleClear corsHeaders
  else
    ret (mkResponse 404 corsHeaders (TextBody "Not found")).

End Agent.

(** ** Requests and runs *)

Definition chat_request (b : body_outcome) : Request :=
  mkRequest "POST" "/chat" b.

(** A request without a body: [request.json()] would reject. *)
Definition bodyless (m p : string) : Request :=
  mkRequest m p (BodyThrows (JsError "Unexpected end of JSON input")).

Definition history_request : Request := bodyless "GET" "/history".

Definition clear_request : Request := bodyless "POST" "/clear".

(** A freshly constructed object on an empty storage. *)
Definition fresh : World := mkWorld [] None 0 0 [].

(** Requests handled one after the other by the same object. *)
Fixpoint run (P : Platform) (reqs : list Request) (w : World)
  : list (outcome Response) * World :=
  match reqs with
  | [] => ([], w)
  | r :: rs =>
      let (o, w1) := fetch P r w in
      let (os, w2) := run P rs w1 in
      (o :: os, w2)
  end.

(** What [generateAIResponse] makes of the outcome of the model call. *)
Definition ai_answer (o : ai_outcome) : jsval :=
  match o with
  | AiReturns r => normalize r
  | AiThrows _ => VString trouble_text
  end.

(** [this.messages] right after [initializeDatabase] succeeded. *)
Definition hydrated_cache (w : World) : list Message :=
  map message_of_row (order_by_timestamp (rows w)).

Definition hydrated (w : World) : World :=
  mkWorld (hydrated_cache w) (Some (rows w)) (S (S (execs w))) (ticks w)
    (ai_calls w).

(** No storage fault in the next [n] calls of [sql.exec]. *)
Definition no_faults (P : Platform) (w : World) (n : nat) : Prop :=
  forall k, k < n -> sql_fault P (k + execs w) = None.

(** The clock never runs backwards. *)
Definition monotone_clock (P : Platform) : Prop :=
  forall i j, i <= j -> (date_now P i <= date_now P j)%Z.

(** The rows were inserted in timestamp order, and no row is later than the
    next reading of the clock. *)
Definition log_in_clock_order (P : Platform) (w : World) : Prop :=
  order_by_timestamp (rows w) = rows w
  /\ Forall (fun r => (row_timestamp r <= date_now P (ticks w))%Z) (rows w).

(** The body of a [/chat] request has no [message]. *)
Definition lacks_message (b : body_outcome) : Prop :=
  match b with
  | BodyThrows _ => True
  | BodyValue VUndefined => True
  | BodyValue _ => False
  end.

(** Some platforms to run the object on. *)
Definition calm : Platform :=
  mkPlatform (fun _ => None) (fun k => 1000 + Z.of_nat k)%Z
    (fun _ _ => AiReturns (AiObject (VString "Hi there!"))).

Definition ai_down : Platform :=
  mkPlatform (fun _ => None) (fun k => 1000 + Z.of_nat k)%Z
    (fun _ _ => AiThrows (JsError "fetch failed")).

Definition ai_mute : Platform :=
  mkPlatform (fun _ => None) (fun k => 1000 + Z.of_nat k)%Z
    (fun _ _ => AiReturns (AiObject (VString ""))).

(** The [k]-th call of [sql.exec] fails. *)
Definition faulty (k : nat) : Platform :=
  mkPlatform (fun i => if i =? k then Some (JsError "disk I/O error") else None)%nat
    (fun k => 1000 + Z.of_nat k)%Z
    (fun _ _ => AiReturns (AiText "Hi there!")).

(** A clock that runs backwards, one millisecond per reading. *)
Definition backwards : Platform :=
  mkPlatform (fun _ => None) (fun k => 2000 - Z.of_nat k)%Z
    (fun _ _ => AiReturns (AiText "Hi there!")).

(** An object just woken up on a storage that already holds one turn. *)
Definition woken : World :=
  mkWorld [] (Some [row_of user "Hello" 10; row_of assistant "Hi there!" 11])
    0 0 [].

(** ** Derived notions used in the statements *)

(** Rows compared by timestamp. *)
Definition row_le (a b : Row) : Prop := (row_timestamp a <= row_timestamp b)%Z.

(** The text of a string value. *)
Definition text_of (v : jsval) : string :=
  match v with
  | VString s => s
  | _ => ""
  end.

(** The row that the insert of a message with a string content adds. *)
Definition row_of_message (m : Message) : Row :=
  row_of (role m) (text_of (content m)) (timestamp m).

(** The two messages of a [/chat] request received in world [w], and the
    message list it sends to the model. *)
Definition user_turn (P : Platform) (w : World) (v : jsval) : Message :=
  mkMessage user v (date_now P (ticks w)).

Definition context_sent (P : Platform) (w : World) (v : jsval)
  : list ChatTurn :=
  build_context (hydrated_cache w ++ [user_turn P w v]) v.

Definition assistant_turn (P : Platform) (w : World) (v : jsval) : Message :=
  mkMessage assistant
    (ai_answer (ai_run P (List.length (ai_calls w)) (context_sent P w v)))
    (date_now P (S (ticks w))).

(** A well-formed [POST /chat] carrying the text [s]. *)
Definition send (s : string) : Request := chat_request (BodyValue (VString s)).

(** The log made of a list of (user message, assistant message) pairs. *)
Definition log_of (turns : list (Message * Message)) : list Message :=
  flat_map (fun t => [fst t; snd t]) turns.

(** [t] is the pair of messages of a send of the text [s]. *)
Definition turn_of_text (s : string) (t : Message * Message) : Prop :=
  role (fst t) = user /\ content (fst t) = VString s
  /\ role (snd t) = assistant.

(** [o] is the success response of a send, carrying the pair [t]. *)
Definition answers_with (o : outcome Response) (t : Message * Message) : Prop :=
  exists n : nat,
    o = Returned (json_response 200 corsHeaders
                    (chat_success (fst t) (snd t) n)).

(** The message list in the words of the specification: the system
    instruction, the last ten messages of the array as it was before the new
    message was pushed, and the new message. *)
Definition claimed_context (w : World) (v : jsval) : list ChatTurn :=
  [mkTurn system (VString system_prompt)]
  ++ map (fun m => mkTurn (role m) (content m))
       (slice_last 10 (hydrated_cache w))
  ++ [mkTurn user v].

(** The routes of [fetch]. *)
Definition is_preflight (req : Request) : Prop := method req = "OPTIONS".

Definition is_chat (req : Request) : Prop :=
  pathname req = "/chat" /\ method req = "POST".

Definition is_history (req : Request) : Prop :=
  pathname req = "/history" /\ method req = "GET".

Definition is_clear (req : Request) : Prop :=
  pathname req = "/clear" /\ method req = "POST".

(** Lines 40-57 of [fetch]: what is done once [initializeDatabase] is
    through. *)
Definition dispatch (P : Platform) (request : Request) : M Response :=
  if method request =? "OPTIONS" then
    ret (mkResponse 200 corsHeaders NoBody)
  else if (pathname request =? "/chat") && (method request =? "POST") then
    handleChat P request corsHeaders
  else if (pathname request =? "/history") && (method request =? "GET") then
    handleGetHistory corsHeaders
  else if (pathname request =? "/clear") && (method request =? "POST") then
    handleClear P corsHeaders
  else
    ret (mkResponse 404 corsHeaders (TextBody "Not found")).

(** ** Ordering by timestamp *)

Lemma insert_row_last (r : Row) (l : list Row) :
  Forall (fun x => (row_timestamp x <= row_timestamp r)%Z) l ->
  insert_row r l = l ++ [r].
Proof.
  induction 1 as [|x xs Hx _ IH]; simpl; [reflexivity|].
  destruct (Z.ltb_spec (row_timestamp r) (row_timestamp x)); [lia|].
  now rewrite IH.
Qed.

Lemma order_by_timestamp_snoc (l : list Row) (r : Row) :
  order_by_timestamp (l ++ [r]) = insert_row r (order_by_timestamp l).
Proof. unfold order_by_timestamp. now rewrite fold_left_app. Qed.

Lemma insert_row_sorted (r : Row) (l : list Row) :
  Sorted row_le l -> Sorted row_le (insert_row r l).
Proof.
  induction 1 as [|x xs Hs IH Hd]; simpl.
  - repeat constructor.
  - destruct (Z.ltb_spec (row_timestamp r) (row_timestamp x)).
    + constructor; [now constructor|]. constructor. unfold row_le. lia.
    + constructor; [exact IH|].
      destruct Hd as [|y ys Hy]; simpl.
      * constructor. exact H.
      * destruct (Z.ltb_spec (row_timestamp r) (row_timestamp y));
          constructor; assumption.
Qed.

Lemma order_by_timestamp_sorted (l : list Row) :
  Sorted row_le (order_by_timestamp l).
Proof.
  induction l as [|r l IH] using rev_ind.
  - constructor.
  - rewrite order_by_timestamp_snoc. now apply insert_row_sorted.
Qed.

Lemma hydrated_cache_sorted (w : World) :
  Sorted Z.le (map timestamp (hydrated_cache w)).
Proof.
  unfold hydrated_cache.
  pose proof (order_by_timestamp_sorted (rows w)) as Hs.
  induction Hs as [|x xs _ IH Hd]; simpl; constructor; [exact IH|].
  destruct Hd; simpl; constructor. exact H.
Qed.

(** ** One step at a time *)

Lemma normalize_text (r : ai_response) :
  normalize r = VString (text_of (normalize r)).
Proof.
  destruct r as [s|[| |s]]; try reflexivity.
  unfold normalize, js_or; simpl. now destruct (s =? "").
Qed.

Lemma ai_answer_text (o : ai_outcome) :
  ai_answer o = VString (text_of (ai_answer o)).
Proof. destruct o; [apply normalize_text | reflexivity]. Qed.

Ltac world_simpl :=
  unfold set_messages, set_table, count_exec, count_tick, record_ai_call in *;
  cbn in *.

Section Steps.

Variable P : Platform.

Lemma initializeDatabase_ok (w : World) :
  no_faults P w 2 -> initializeDatabase P w = (Returned tt, hydrated w).
Proof.
  intros H.
  pose proof (H 0 ltac:(lia)) as H0. pose proof (H 1 ltac:(lia)) as H1.
  simpl in H0, H1.
  unfold initializeDatabase, bind, sql_exec, modify, hydrated, hydrated_cache,
    rows.
  rewrite H0. destruct (table w) eqn:E; world_simpl; rewrite H1; world_simpl;
    rewrite ?E; reflexivity.
Qed.

Lemma initializeDatabase_thrown (w w1 : World) (e : exn) :
  initializeDatabase P w = (Thrown e, w1) ->
  messages w1 = messages w /\ rows w1 = rows w.
Proof.
  unfold initializeDatabase, bind, sql_exec, modify, rows.
  destruct (sql_fault P (execs w)); [intros [= _ <-]; world_simpl; auto|].
  destruct (table w) eqn:E; world_simpl;
    (destruct (sql_fault P (S (execs w)));
     [intros [= _ <-]; world_simpl; rewrite ?E; auto|]);
    rewrite ?E; cbn; discriminate.
Qed.

Lemma initializeDatabase_returned (w w1 : World) (u : unit) :
  initializeDatabase P w = (Returned u, w1) ->
  messages w1 = hydrated_cache w /\ table w1 = Some (rows w).
Proof.
  unfold initializeDatabase, bind, sql_exec, modify, rows, hydrated_cache, rows.
  destruct (sql_fault P (execs w)); [discriminate|].
  destruct (table w) eqn:E; world_simpl;
    (destruct (sql_fault P (S (execs w))); [discriminate|]);
    rewrite ?E; cbn; intros [= _ <-]; auto.
Qed.

Lemma saveMessage_ok (w : World) (rs : list Row) (r : Role) (s : string)
      (t : Z) :
  sql_fault P (execs w) = None ->
  table w = Some rs ->
  saveMessage P (mkMessage r (VString s) t) w
  = (Returned tt,
     mkWorld (messages w ++ [mkMessage r (VString s) t])
       (Some (rs ++ [row_of r s t])) (S (execs w)) (ticks w) (ai_calls w)).
Proof.
  intros Hf Ht. unfold saveMessage, bind, modify, sql_exec, ret; world_simpl.
  now rewrite Hf, Ht.
Qed.

(** [saveMessage] pushes before it inserts: when the insert throws, the
    array already holds the message. *)
Lemma saveMessage_thrown (w w1 : World) (m : Message) (e : exn) :
  saveMessage P m w = (Thrown e, w1) ->
  messages w1 = messages w ++ [m] /\ table w1 = table w.
Proof.
  unfold saveMessage, bind, modify, sql_exec, ret; world_simpl.
  destruct (sql_fault P (execs w)); [intros [= _ <-]; auto|].
  destruct (table w); [|intros [= _ <-]; auto].
  destruct (content m); intros [= _ <-]; auto.
Qed.

Lemma generateAIResponse_eq (v : jsval) (w : World) :
  generateAIResponse P v w
  = (Returned
       (ai_answer (ai_run P (List.length (ai_calls w))
                     (build_context (messages w) v))),
     record_ai_call (build_context (messages w) v) w).
Proof.
  unfold generateAIResponse, try_catch, bind, get, AI_run, ret, ai_answer.
  now destruct (ai_run P _ _).
Qed.

Lemma handleChat_ok (req : Request) (w : World) (rs : list Row) (s : string) :
  request_json req = BodyValue (VString s) ->
  table w = Some rs ->
  sql_fault P (execs w) = None ->
  sql_fault P (S (execs w)) = None ->
  let u := mkMessage user (VString s) (date_now P (ticks w)) in
  let ctx := build_context (messages w ++ [u]) (VString s) in
  let a := mkMessage assistant
             (ai_answer (ai_run P (List.length (ai_calls w)) ctx))
             (date_now P (S (ticks w))) in
  handleChat P req corsHeaders w
  = (Returned (json_response 200 corsHeaders
                 (chat_success u a (List.length (messages w ++ [u; a])))),
     mkWorld (messages w ++ [u; a])
       (Some (rs ++ [row_of_message u; row_of_message a]))
       (S (S (execs w))) (S (S (ticks w))) (ai_calls w ++ [ctx])).
Proof.
  intros Hb Ht H0 H1 u ctx a.
  unfold handleChat, try_catch. rewrite Hb.
  unfold bind at 1. unfold ret at 1.
  unfold bind at 1. unfold Date_now at 1.
  unfold bind at 1.
  rewrite (saveMessage_ok _ rs) by (world_simpl; assumption).
  unfold bind at 1. rewrite generateAIResponse_eq.
  unfold bind at 1. unfold Date_now at 1.
  unfold bind at 1. cbn [messages ai_calls ticks record_ai_call count_tick].
  fold u. fold ctx.
  rewrite (ai_answer_text (ai_run P _ ctx)).
  rewrite (saveMessage_ok _ (rs ++ [row_of user s (date_now P (ticks w))]))
    by (world_simpl; auto).
  unfold bind, get, ret. world_simpl.
  subst a. rewrite <- (ai_answer_text (ai_run P _ ctx)).
  unfold row_of_message; cbn.
  now rewrite <- !app_assoc.
Qed.

End Steps.

(** ** Whole requests *)

Section Requests.

Variable P : Platform.

Lemma fetch_options (req : Request) (w : World) :
  method req = "OPTIONS" ->
  no_faults P w 2 ->
  fetch P req w = (Returned (mkResponse 200 corsHeaders NoBody), hydrated w).
Proof.
  intros Hm Hf. unfold fetch, bind.
  rewrite (initializeDatabase_ok P w Hf), Hm. reflexivity.
Qed.

Lemma fetch_chat (req : Request) (w : World) :
  method req = "POST" ->
  pathname req = "/chat" ->
  no_faults P w 2 ->
  fetch P req w = handleChat P req corsHeaders (hydrated w).
Proof.
  intros Hm Hp Hf. unfold fetch, bind.
  rewrite (initializeDatabase_ok P w Hf), Hm, Hp. reflexivity.
Qed.

Lemma fetch_history (req : Request) (w : World) :
  method req = "GET" ->
  pathname req = "/history" ->
  no_faults P w 2 ->
  fetch P req w
  = (Returned (json_response 200 corsHeaders (history_json (hydrated_cache w))),
     hydrated w).
Proof.
  intros Hm Hp Hf. unfold fetch, bind.
  rewrite (initializeDatabase_ok P w Hf), Hm, Hp. reflexivity.
Qed.

Lemma fetch_clear (req : Request) (w : World) :
  method req = "POST" ->
  pathname req = "/clear" ->
  no_faults P w 2 ->
  fetch P req w = handleClear P corsHeaders (hydrated w).
Proof.
  intros Hm Hp Hf. unfold fetch, bind.
  rewrite (initializeDatabase_ok P w Hf), Hm, Hp. reflexivity.
Qed.

Lemma fetch_chat_ok (req : Request) (w : World) (s : string) :
  method req = "POST" ->
  pathname req = "/chat" ->
  request_json req = BodyValue (VString s) ->
  no_faults P w 4 ->
  let u := user_turn P w (VString s) in
  let a := assistant_turn P w (VString s) in
  fetch P req w
  = (Returned (json_response 200 corsHeaders
                 (chat_success u a (List.length (hydrated_cache w ++ [u; a])))),
     mkWorld (hydrated_cache w ++ [u; a])
       (Some (rows w ++ [row_of_message u; row_of_message a]))
       (4 + execs w) (2 + ticks w)
       (ai_calls w ++ [context_sent P w (VString s)])).
Proof.
  intros Hm Hp Hb Hf u a.
  rewrite fetch_chat; try assumption.
  2:{ intros k Hk. apply Hf. lia. }
  rewrite (handleChat_ok P req (hydrated w) (rows w) s); try reflexivity;
    try assumption.
  - apply (Hf 2). lia.
  - apply (Hf 3). lia.
Qed.

End Requests.

(** ** Keeping the log in clock order *)

Lemma message_of_row_of_message (m : Message) :
  content m = VString (text_of (content m)) ->
  message_of_row (row_of_message m) = m.
Proof.
  destruct m as [r c t]; simpl. intros ->. reflexivity.
Qed.

Lemma order_by_timestamp_two (rs : list Row) (ru ra : Row) :
  order_by_timestamp rs = rs ->
  Forall (fun r => (row_timestamp r <= row_timestamp ru)%Z) rs ->
  (row_timestamp ru <= row_timestamp ra)%Z ->
  order_by_timestamp (rs ++ [ru; ra]) = rs ++ [ru; ra].
Proof.
  intros Ho Hle Hua.
  change [ru; ra] with ([ru] ++ [ra]). rewrite app_assoc.
  rewrite !order_by_timestamp_snoc, Ho.
  rewrite (insert_row_last ru rs Hle).
  rewrite insert_row_last; [reflexivity|].
  apply Forall_app; split.
  - eapply Forall_impl; [|exact Hle]. simpl. intros; lia.
  - now constructor.
Qed.

Lemma chat_keeps_clock_order (P : Platform) (w : World) (s : string) :
  monotone_clock P ->
  log_in_clock_order P w ->
  let u := user_turn P w (VString s) in
  let a := assistant_turn P w (VString s) in
  forall w' : World,
    rows w' = rows w ++ [row_of_message u; row_of_message a] ->
    ticks w' = 2 + ticks w ->
    log_in_clock_order P w'.
Proof.
  intros Hmono [Ho Hle] u a w' Hr Ht.
  assert (H01 : (date_now P (ticks w) <= date_now P (S (ticks w)))%Z)
    by (apply Hmono; lia).
  assert (H12 : (date_now P (S (ticks w)) <= date_now P (2 + ticks w))%Z)
    by (apply Hmono; lia).
  simpl in H12, Ht.
  split; rewrite Hr.
  - apply order_by_timestamp_two; simpl; assumption.
  - rewrite Ht. apply Forall_app; split.
    + eapply Forall_impl; [|exact Hle]. simpl. intros; lia.
    + repeat constructor; simpl; lia.
Qed.

(** ** Sending, then reading the history *)

Lemma run_sends (P : Platform) (texts : list string) :
  (forall k, sql_fault P k = None) ->
  monotone_clock P ->
  forall w : World,
    log_in_clock_order P w ->
    exists turns : list (Message * Message),
      Forall2 turn_of_text texts turns
      /\ Forall2 answers_with (fst (run P (map send texts) w)) turns
      /\ map message_of_row (rows (snd (run P (map send texts) w)))
         = map message_of_row (rows w) ++ log_of turns
      /\ log_in_clock_order P (snd (run P (map send texts) w)).
Proof.
  intros Hf Hmono. induction texts as [|s texts IH]; intros w Hw.
  - exists []. simpl. rewrite app_nil_r.
    split; [constructor|]. split; [constructor|]. split; [reflexivity|assumption].
  - simpl.
    rewrite (fetch_chat_ok P (send s) w s) by (try reflexivity; intros k _; apply Hf).
    set (u := user_turn P w (VString s)).
    set (a := assistant_turn P w (VString s)).
    set (w1 := mkWorld _ _ _ _ _).
    assert (Hw1 : log_in_clock_order P w1)
      by (apply (chat_keeps_clock_order P w s Hmono Hw); reflexivity).
    destruct (IH w1 Hw1) as (turns & Ht & Ha & Hr & Ho).
    destruct (run P (map send texts) w1) as [os w2]. simpl in *.
    exists ((u, a) :: turns).
    split; [|split; [|split; [|assumption]]].
    + constructor; [|assumption]. repeat split.
    + constructor; [|assumption]. eexists. reflexivity.
    + rewrite Hr. unfold w1, rows at 1; simpl.
      rewrite map_app, <- app_assoc. simpl.
      rewrite !message_of_row_of_message; [reflexivity| |reflexivity].
      apply ai_answer_text.
Qed.

Lemma log_of_length (turns : list (Message * Message)) :
  List.length (log_of turns) = 2 * List.length turns.
Proof. induction turns as [|t turns IH]; simpl in *; lia. Qed.

(** What was read from the table has a string content. *)
Lemma loaded_messages_are_text (rs : list Row) (pre ms : list Message) :
  map message_of_row rs = pre ++ ms ->
  Forall (fun m => content m = VString (text_of (content m))) ms.
Proof.
  intros H. apply Forall_forall. intros m Hin.
  assert (Hm : In m (map message_of_row rs))
    by (rewrite H; apply in_or_app; now right).
  apply in_map_iff in Hm as (r & <- & _). reflexivity.
Qed.

(** [JSON.stringify] of the messages of a list of turns, written out. *)
Lemma json_of_log (texts : list string) (turns : list (Message * Message)) :
  Forall2 turn_of_text texts turns ->
  Forall (fun m => content m = VString (text_of (content m))) (log_of turns) ->
  map json_of_message (log_of turns)
  = flat_map
      (fun t =>
         [JObj [("role", JStr "user");
                ("content", JStr (text_of (content (fst t))));
                ("timestamp", JNum (timestamp (fst t)))];
          JObj [("role", JStr "assistant");
                ("content", JStr (text_of (content (snd t))));
                ("timestamp", JNum (timestamp (snd t)))]])
      turns.
Proof.
  induction 1 as [|s t texts turns (Hru & Hcu & Hra) _ IH]; intros Hc;
    [reflexivity|].
  cbn [log_of flat_map app] in Hc.
  apply Forall_cons_iff in Hc as [_ Hc].
  apply Forall_cons_iff in Hc as [Hca Hc].
  cbn [log_of flat_map app map]. fold (log_of turns). rewrite (IH Hc).
  destruct t as [[ru cu tu] [ra ca ta]]. cbn in *. subst ru cu ra.
  rewrite Hca. reflexivity.
Qed.

(** C1, as the code has it.  Starting from an empty durable log, with a
    storage that does not fail and a clock that never runs backwards, any
    sequence of well-formed sends is answered, one success response per
    send, each carrying the user message of that send and an assistant
    message whose content is a string; a history request made afterwards
    is answered with status 200 and exactly these messages, user then
    assistant per send in call order, with a count of two per send, and
    their timestamps never decrease from one message to the next. *)
Theorem history_after_sends (P : Platform) (texts : list string) (w : World) :
  rows w = [] ->
  (forall k, sql_fault P k = None) ->
  monotone_clock P ->
  exists turns : list (Message * Message),
    Forall2 turn_of_text texts turns
    /\ Forall (fun t => exists answer : string,
                   content (snd t) = VString answer) turns
    /\ Forall2 answers_with (fst (run P (map send texts) w)) turns
    /\ fst (fetch P history_request (snd (run P (map send texts) w)))
       = Returned
           (mkResponse 200
              (("Content-Type", "application/json") :: corsHeaders)
              (JsonBody
                 (JObj
                    [("success", JBool true);
                     ("messages",
                      JArr
                        (flat_map
                           (fun t =>
                              [JObj [("role", JStr "user");
                                     ("content",
                                      JStr (text_of (content (fst t))));
                                     ("timestamp", JNum (timestamp (fst t)))];
                               JObj [("role", JStr "assistant");
                                     ("content",
                                      JStr (text_of (content (snd t))));
                                     ("timestamp", JNum (timestamp (snd t)))]])
                           turns));
                     ("count", JNum (Z.of_nat (2 * List.length texts)))])))
    /\ Sorted Z.le (map timestamp (log_of turns)).
Proof.
  intros Hempty Hf Hmono.
  assert (Hw : log_in_clock_order P w)
    by (unfold log_in_clock_order; rewrite Hempty; split; constructor).
  destruct (run_sends P texts Hf Hmono w Hw) as (turns & Ht & Ha & Hr & Ho & _).
  rewrite Hempty in Hr. cbn [map app] in Hr.
  assert (Htext : Forall (fun m => content m = VString (text_of (content m)))
                    (log_of turns))
    by (apply (loaded_messages_are_text _ [] _ Hr)).
  assert (Hcache : hydrated_cache (snd (run P (map send texts) w))
                   = log_of turns)
    by (unfold hydrated_cache; now rewrite Ho, Hr).
  exists turns. split; [assumption|]. split; [|split; [assumption|split]].
  - apply Forall_forall. intros t Hin.
    exists (text_of (content (snd t))).
    apply (proj1 (Forall_forall _ _) Htext).
    unfold log_of. apply in_flat_map. exists t. split; [exact Hin|].
    right; left; reflexivity.
  - rewrite fetch_history by (try reflexivity; intros k _; apply Hf).
    cbn [fst]. rewrite Hcache. unfold json_response, history_json.
    rewrite (json_of_log texts turns Ht Htext), log_of_length.
    now rewrite (Forall2_length Ht).
  - rewrite <- Hcache. apply hydrated_cache_sorted.
Qed.

Lemma history_after_sends_witness :
  exists turns : list (Message * Message),
    Forall2 turn_of_text ["Hello"; "How are you?"] turns
    /\ Forall (fun t => exists answer : string,
                   content (snd t) = VString answer) turns
    /\ Forall2 answers_with
         (fst (run calm (map send ["Hello"; "How are you?"]) fresh)) turns
    /\ fst (fetch calm history_request
              (snd (run calm (map send ["Hello"; "How are you?"]) fresh)))
       = Returned
           (mkResponse 200
              (("Content-Type", "application/json") :: corsHeaders)
              (JsonBody
                 (JObj
                    [("success", JBool true);
                     ("messages",
                      JArr
                        (flat_map
                           (fun t =>
                              [JObj [("role", JStr "user");
                                     ("content",
                                      JStr (text_of (content (fst t))));
                                     ("timestamp", JNum (timestamp (fst t)))];
                               JObj [("role", JStr "assistant");
                                     ("content",
                                      JStr (text_of (content (snd t))));
                                     ("timestamp", JNum (timestamp (snd t)))]])
                           turns));
                     ("count",
                      JNum (Z.of_nat
                              (2 * List.length ["Hello"; "How are you?"])))])))
    /\ Sorted Z.le (map timestamp (log_of turns)).
Proof.
  apply (history_after_sends calm ["Hello"; "How are you?"] fresh).
  - reflexivity.
  - reflexivity.
  - intros i j Hij. cbn [calm date_now]. lia.
Defined.

(** C1 does not hold as stated: the history is read in timestamp order,
    so when the clock runs backwards between the two readings of a send,
    the assistant message comes back before the user message it answers. *)
Lemma backward_clock_counterexample :
  fst (fetch backwards (send "Hello") fresh)
  = Returned
      (json_response 200 corsHeaders
         (chat_success (mkMessage user (VString "Hello") 2000)
            (mkMessage assistant (VString "Hi there!") 1999) 2))
  /\ fst (fetch backwards history_request
            (snd (fetch backwards (send "Hello") fresh)))
     = Returned
         (mkResponse 200
            (("Content-Type", "application/json") :: corsHeaders)
            (JsonBody
               (JObj
                  [("success", JBool true);
                   ("messages",
                    JArr
                      [JObj [("role", JStr "assistant");
                             ("content", JStr "Hi there!");
                             ("timestamp", JNum 1999)];
                       JObj [("role", JStr "user");
                             ("content", JStr "Hello");
                             ("timestamp", JNum 2000)]]);
                   ("count", JNum 2)])))
  /\ messages (snd (fetch backwards history_request
                      (snd (fetch backwards (send "Hello") fresh))))
     <> [mkMessage user (VString "Hello") 2000;
         mkMessage assistant (VString "Hi there!") 1999].
Proof.
  split; [reflexivity|]. split; [reflexivity|]. vm_compute. discriminate.
Qed.

(** ** The array and the log *)

Lemma bind_returned {A B : Type} (c : M A) (k : A -> M B) (w w' : World)
      (b : B) :
  bind c k w = (Returned b, w') ->
  exists (a : A) (w1 : World), c w = (Returned a, w1) /\ k a w1 = (Returned b, w').
Proof.
  unfold bind. destruct (c w) as [[a|e] w1]; [|discriminate].
  intros H. now exists a, w1.
Qed.

Section Mirror.

Variable P : Platform.

Lemma saveMessage_returned (w w1 : World) (m : Message) (u : unit) :
  saveMessage P m w = (Returned u, w1) ->
  exists rs : list Row,
    table w = Some rs
    /\ messages w1 = messages w ++ [m]
    /\ table w1 = Some (rs ++ [row_of_message m])
    /\ message_of_row (row_of_message m) = m.
Proof.
  unfold saveMessage, bind, modify, sql_exec, ret; world_simpl.
  destruct (sql_fault P (execs w)); [discriminate|].
  destruct (table w) as [rs|]; [|discriminate].
  destruct m as [r [| |s] t]; cbn; try discriminate.
  intros [= _ <-]. exists rs. cbn. auto.
Qed.

Lemma saveMessage_fault (w : World) (m : Message) (e : exn) :
  sql_fault P (execs w) = Some e ->
  saveMessage P m w
  = (Thrown e,
     mkWorld (messages w ++ [m]) (table w) (S (execs w)) (ticks w)
       (ai_calls w)).
Proof.
  intros He. unfold saveMessage, bind, modify, sql_exec, ret; world_simpl.
  now rewrite He.
Qed.

(** The first statement of [handleChat] that throws decides the answer:
    here the insert of the user message. *)
Lemma handleChat_user_insert_thrown (req : Request) (w w1 : World) (v : jsval)
      (e : exn) :
  request_json req = BodyValue v ->
  saveMessage P (mkMessage user v (date_now P (ticks w))) (count_tick w)
  = (Thrown e, w1) ->
  handleChat P req corsHeaders w
  = (Returned (json_response 500 corsHeaders (chat_failure e)), w1).
Proof.
  intros Hb Hs. unfold handleChat, try_catch. rewrite Hb.
  unfold bind at 1. unfold ret at 1.
  unfold bind at 1. unfold Date_now at 1.
  unfold bind at 1. rewrite Hs. reflexivity.
Qed.

(** A [/chat] answered with status 200 pushed and inserted both messages. *)
Lemma handleChat_200 (req : Request) (w w' : World) (resp : Response) :
  handleChat P req corsHeaders w = (Returned resp, w') ->
  status resp = 200%Z ->
  exists (rs : list Row) (u a : Message),
    table w = Some rs
    /\ messages w' = messages w ++ [u; a]
    /\ table w' = Some (rs ++ [row_of_message u; row_of_message a])
    /\ message_of_row (row_of_message u) = u
    /\ message_of_row (row_of_message a) = a.
Proof.
  unfold handleChat, try_catch.
  match goal with |- context [match ?c w with _ => _ end] =>
    destruct (c w) as [[r|e] w2] eqn:E end.
  2:{ intros [= <- _]. discriminate. }
  intros [= -> ->] _.
  apply bind_returned in E as (v & w0 & Hbody & E).
  destruct (request_json req); [discriminate|]. injection Hbody as _ <-.
  apply bind_returned in E as (t & w1 & Hnow & E).
  apply bind_returned in E as (x1 & w3 & Hs1 & E).
  apply bind_returned in E as (ans & w4 & Hg & E).
  apply bind_returned in E as (t' & w5 & Hnow' & E).
  apply bind_returned in E as (x2 & w6 & Hs2 & E).
  apply bind_returned in E as (w7 & w8 & Hget & E).
  injection Hget as <- <-. injection E as _ <-.
  rewrite generateAIResponse_eq in Hg. injection Hg as _ <-.
  injection Hnow as _ <-. injection Hnow' as _ <-.
  apply saveMessage_returned in Hs1 as (rs & Ht1 & Hm1 & Ht1' & Hr1).
  apply saveMessage_returned in Hs2 as (rs' & Ht2 & Hm2 & Ht2' & Hr2).
  world_simpl. rewrite Ht1' in Ht2. injection Ht2 as <-.
  exists rs, (mkMessage user v t), (mkMessage assistant ans t').
  repeat split; try assumption.
  - rewrite Hm2, Hm1, <- app_assoc. reflexivity.
  - rewrite Ht2', <- app_assoc. reflexivity.
Qed.

End Mirror.

(** C2 does not hold as stated: when the insert of the user message fails,
    the array has been mutated with the new message although the durable
    log has not. *)
Lemma cache_ahead_of_log_counterexample :
  sql_fault (faulty 2) 2 = Some (JsError "disk I/O error")
  /\ rows (snd (fetch (faulty 2) (send "Hello") fresh)) = []
  /\ messages (snd (fetch (faulty 2) (send "Hello") fresh))
     = [mkMessage user (VString "Hello") 1000]
  /\ messages (snd (fetch (faulty 2) (send "Hello") fresh))
     <> map message_of_row (rows (snd (fetch (faulty 2) (send "Hello") fresh))).
Proof.
  repeat split; try reflexivity. vm_compute. discriminate.
Qed.

(** ** The context sent to the model *)

Lemma slice_last_snoc {A : Type} (n : nat) (l : list A) (x : A) :
  slice_last (S n) (l ++ [x]) = slice_last n l ++ [x].
Proof.
  unfold slice_last. rewrite length_app. simpl.
  replace (List.length l + 1 - S n) with (List.length l - n) by lia.
  rewrite skipn_app.
  replace (List.length l - n - List.length l) with 0 by lia.
  reflexivity.
Qed.

Lemma slice_last_length {A : Type} (n : nat) (l : list A) :
  List.length (slice_last n l) <= n.
Proof. unfold slice_last. rewrite length_skipn. lia. Qed.

(** [handleChat] saves the user message before it calls
    [generateAIResponse], so the window is cut from an array that already
    ends with the new message: nine earlier messages at most, the new
    message, and the new message once more. *)
Lemma context_sent_eq (P : Platform) (w : World) (v : jsval) :
  context_sent P w v
  = [mkTurn system (VString system_prompt)]
    ++ map (fun m => mkTurn (role m) (content m))
         (slice_last 9 (hydrated_cache w))
    ++ [mkTurn user v; mkTurn user v].
Proof.
  unfold context_sent, build_context.
  rewrite slice_last_snoc, map_app, <- app_assoc. reflexivity.
Qed.

Lemma context_sent_length (P : Platform) (w : World) (v : jsval) :
  List.length (context_sent P w v) <= 12.
Proof.
  rewrite context_sent_eq. simpl. rewrite length_app, length_map. simpl.
  pose proof (slice_last_length 9 (hydrated_cache w)). lia.
Qed.

Lemma chat_sends_context (P : Platform) (req : Request) (w : World)
      (s : string) :
  method req = "POST" ->
  pathname req = "/chat" ->
  request_json req = BodyValue (VString s) ->
  no_faults P w 4 ->
  ai_calls (snd (fetch P req w)) = ai_calls w ++ [context_sent P w (VString s)].
Proof.
  intros Hm Hp Hb Hf. now rewrite (fetch_chat_ok P req w s).
Qed.

(** C3.  The first "Hello" sent to a fresh object reaches the model as
    three messages, the user message twice, where the specification's list
    has two. *)
Theorem context_repeats_user_message :
  ai_calls (snd (fetch calm (send "Hello") fresh))
  = [[mkTurn system (VString system_prompt);
      mkTurn user (VString "Hello");
      mkTurn user (VString "Hello")]]
  /\ claimed_context fresh (VString "Hello")
     = [mkTurn system (VString system_prompt);
        mkTurn user (VString "Hello")].
Proof. split; reflexivity. Qed.

(** ** When the model fails *)

(** C4, as the code has it.  A well-formed send whose model call throws is
    still answered with status 200 and [success: true]; the assistant
    message carries the fixed text "I'm having trouble connecting to the AI
    service. Please try again.", and it is pushed to the array and inserted
    in the table like any other assistant message. *)
Theorem model_failure_is_absorbed (P : Platform) (req : Request) (w : World)
        (s : string) (e : exn) :
  method req = "POST" ->
  pathname req = "/chat" ->
  request_json req = BodyValue (VString s) ->
  no_faults P w 4 ->
  ai_run P (List.length (ai_calls w)) (context_sent P w (VString s))
  = AiThrows e ->
  let u := mkMessage user (VString s) (date_now P (ticks w)) in
  let a := mkMessage assistant
             (VString "I'm having trouble connecting to the AI service. Please try again.")
             (date_now P (S (ticks w))) in
  fst (fetch P req w)
  = Returned (json_response 200 corsHeaders
                (chat_success u a (List.length (hydrated_cache w) + 2)))
  /\ messages (snd (fetch P req w)) = hydrated_cache w ++ [u; a]
  /\ rows (snd (fetch P req w))
     = rows w ++ [row_of_message u; row_of_message a].
Proof.
  intros Hm Hp Hb Hf Hai u a.
  rewrite (fetch_chat_ok P req w s) by assumption.
  unfold assistant_turn. rewrite Hai. cbn [ai_answer fst snd messages].
  fold trouble_text. fold (user_turn P w (VString s)).
  rewrite length_app. repeat split.
Qed.

Lemma model_failure_is_absorbed_witness :
  fst (fetch ai_down (send "Hello") fresh)
  = Returned (json_response 200 corsHeaders
                (chat_success (mkMessage user (VString "Hello") 1000)
                   (mkMessage assistant
                      (VString "I'm having trouble connecting to the AI service. Please try again.")
                      1001)
                   2))
  /\ messages (snd (fetch ai_down (send "Hello") fresh))
     = [mkMessage user (VString "Hello") 1000;
        mkMessage assistant
          (VString "I'm having trouble connecting to the AI service. Please try again.")
          1001]
  /\ rows (snd (fetch ai_down (send "Hello") fresh))
     = [row_of user "Hello" 1000;
        row_of assistant
          "I'm having trouble connecting to the AI service. Please try again."
          1001].
Proof.
  apply (model_failure_is_absorbed ai_down (send "Hello") fresh "Hello"
           (JsError "fetch failed")); try reflexivity.
  intros k _. reflexivity.
Defined.

(** C4 does not hold as stated: when the model call throws, the assistant
    message is not the fallback text "I apologize, but I couldn't generate a
    response.". *)
Lemma model_failure_text_counterexample :
  ai_run ai_down 0 (context_sent ai_down fresh (VString "Hello"))
  = AiThrows (JsError "fetch failed")
  /\ exists (u a : Message) (n : nat),
      fst (fetch ai_down (send "Hello") fresh)
      = Returned (json_response 200 corsHeaders (chat_success u a n))
      /\ content a
         = VString "I'm having trouble connecting to the AI service. Please try again."
      /\ content a
         <> VString "I apologize, but I couldn't generate a response.".
Proof.
  split; [reflexivity|].
  exists (mkMessage user (VString "Hello") 1000),
    (mkMessage assistant (VString trouble_text) 1001), 2.
  repeat split. discriminate.
Qed.

(** ** A body without [message] *)

Section Malformed.

Variable P : Platform.

Lemma handleChat_body_thrown (req : Request) (w : World) (e : exn) :
  request_json req = BodyThrows e ->
  handleChat P req corsHeaders w
  = (Returned (json_response 500 corsHeaders (chat_failure e)), w).
Proof.
  intros Hb. unfold handleChat, try_catch. rewrite Hb. reflexivity.
Qed.

(** An [undefined] content never gets into the table: the call fails in
    the storage layer, or on the missing table, or on the [NOT NULL]
    constraint. *)
Lemma saveMessage_undefined (w : World) (r : Role) (t : Z) :
  exists (e : exn) (w1 : World),
    saveMessage P (mkMessage r VUndefined t) w = (Thrown e, w1).
Proof.
  unfold saveMessage, bind, modify, sql_exec, ret; world_simpl.
  destruct (sql_fault P (execs w)); [eauto|].
  destruct (table w); eauto.
Qed.

End Malformed.

(** C5.  A [POST /chat] whose body has no [message] (the body is missing or
    is not JSON, or the parsed value has no such property) is answered, once
    the object is hydrated, with status 500 and the JSON envelope [{success:
    false, error: <message>}]. *)
Theorem chat_without_message_is_500 (P : Platform) (req : Request) (w : World) :
  method req = "POST" ->
  pathname req = "/chat" ->
  lacks_message (request_json req) ->
  no_faults P w 2 ->
  exists error : string,
    fst (fetch P req w)
    = Returned
        (mkResponse 500
           (("Content-Type", "application/json") :: corsHeaders)
           (JsonBody (JObj [("success", JBool false); ("error", JStr error)]))).
Proof.
  intros Hm Hp Hl Hf. rewrite fetch_chat by assumption.
  destruct (request_json req) as [e|[| |s]] eqn:Hb; try contradiction.
  - exists (error_text e). now rewrite (handleChat_body_thrown P req _ e).
  - destruct (saveMessage_undefined P (count_tick (hydrated w)) user
                (date_now P (ticks (hydrated w)))) as (e & w1 & Hs).
    exists (error_text e).
    now rewrite (handleChat_user_insert_thrown P req _ w1 VUndefined e).
Qed.

Lemma chat_without_message_is_500_witness :
  exists error : string,
    fst (fetch calm (chat_request (BodyValue VUndefined)) fresh)
    = Returned
        (mkResponse 500
           (("Content-Type", "application/json") :: corsHeaders)
           (JsonBody (JObj [("success", JBool false); ("error", JStr error)]))).
Proof.
  apply (chat_without_message_is_500 calm
           (chat_request (BodyValue VUndefined)) fresh);
    try reflexivity; try exact I.
  intros k _. reflexivity.
Defined.

(** ** Clearing *)

Lemma no_faults_later (P : Platform) (w w1 : World) (n m : nat) :
  no_faults P w (n + m) ->
  execs w1 = n + execs w ->
  no_faults P w1 m.
Proof.
  intros Hf He k Hk. rewrite He.
  replace (k + (n + execs w)) with ((k + n) + execs w) by lia.
  apply Hf. lia.
Qed.

Lemma fetch_clear_ok (P : Platform) (req : Request) (w : World) :
  method req = "POST" ->
  pathname req = "/clear" ->
  no_faults P w 3 ->
  fetch P req w
  = (Returned (json_response 200 corsHeaders clear_json),
     mkWorld [] (Some []) (3 + execs w) (ticks w) (ai_calls w)).
Proof.
  intros Hm Hp Hf. rewrite fetch_clear; try assumption.
  2:{ intros k Hk. apply Hf. lia. }
  pose proof (Hf 2 ltac:(lia)) as H2. simpl in H2.
  unfold handleClear, bind, sql_exec, modify, ret. cbn.
  rewrite H2. reflexivity.
Qed.

(** C6.  Whatever the array and the table hold, when the storage does not
    fail a clear is answered with the bare [{success: true}] and a history
    request made right after it is answered with an empty list of messages
    and count 0. *)
Theorem clear_then_history_is_empty (P : Platform) (creq hreq : Request)
        (w : World) :
  method creq = "POST" ->
  pathname creq = "/clear" ->
  method hreq = "GET" ->
  pathname hreq = "/history" ->
  no_faults P w 5 ->
  fst (fetch P creq w)
  = Returned
      (mkResponse 200 (("Content-Type", "application/json") :: corsHeaders)
         (JsonBody (JObj [("success", JBool true)])))
  /\ fst (fetch P hreq (snd (fetch P creq w)))
     = Returned
         (mkResponse 200 (("Content-Type", "application/json") :: corsHeaders)
            (JsonBody (JObj [("success", JBool true);
                             ("messages", JArr []);
                             ("count", JNum 0)]))).
Proof.
  intros Hcm Hcp Hhm Hhp Hf.
  rewrite (fetch_clear_ok P creq w) by
    (try assumption; intros k Hk; apply Hf; lia).
  split; [reflexivity|]. cbn [snd].
  rewrite fetch_history; try assumption; [reflexivity|].
  apply (no_faults_later P w _ 3 2 Hf). reflexivity.
Qed.

Lemma clear_then_history_is_empty_witness :
  fst (fetch calm clear_request woken)
  = Returned
      (mkResponse 200 (("Content-Type", "application/json") :: corsHeaders)
         (JsonBody (JObj [("success", JBool true)])))
  /\ fst (fetch calm history_request (snd (fetch calm clear_request woken)))
     = Returned
         (mkResponse 200 (("Content-Type", "application/json") :: corsHeaders)
            (JsonBody (JObj [("success", JBool true);
                             ("messages", JArr []);
                             ("count", JNum 0)]))).
Proof.
  apply (clear_then_history_is_empty calm clear_request history_request woken);
    try reflexivity.
  intros k _. reflexivity.
Defined.

(** C10.  [handleClear] deletes before it resets the array.  When the
    delete throws, the handler throws the same error with the array and the
    table as it found them; the request as a whole ends with that error, not
    with a response, and leaves the hydrated array and the rows in place. *)
Theorem clear_failure_keeps_cache (P : Platform) (req : Request) (w : World)
        (e : exn) :
  method req = "POST" ->
  pathname req = "/clear" ->
  no_faults P w 2 ->
  sql_fault P (2 + execs w) = Some e ->
  handleClear P corsHeaders (hydrated w) = (Thrown e, count_exec (hydrated w))
  /\ fst (fetch P req w) = Thrown e
  /\ messages (snd (fetch P req w)) = messages (hydrated w)
  /\ table (snd (fetch P req w)) = table (hydrated w).
Proof.
  intros Hm Hp Hf He.
  assert (Hc : handleClear P corsHeaders (hydrated w)
               = (Thrown e, count_exec (hydrated w))).
  { unfold handleClear, bind, sql_exec. cbn [hydrated execs].
    simpl in He. now rewrite He. }
  rewrite fetch_clear by assumption. rewrite Hc. repeat split.
Qed.

Lemma clear_failure_keeps_cache_witness :
  handleClear (faulty 2) corsHeaders (hydrated woken)
  = (Thrown (JsError "disk I/O error"), count_exec (hydrated woken))
  /\ fst (fetch (faulty 2) clear_request woken)
     = Thrown (JsError "disk I/O error")
  /\ messages (snd (fetch (faulty 2) clear_request woken))
     = messages (hydrated woken)
  /\ table (snd (fetch (faulty 2) clear_request woken))
     = table (hydrated woken).
Proof.
  apply (clear_failure_keeps_cache (faulty 2) clear_request woken);
    try reflexivity.
  intros k Hk. destruct k as [|[|k]]; [reflexivity|reflexivity|lia].
Defined.

(** ** What is made of the model's value *)

(** C7, as the code has it.  When the model call returns: a bare string is
    the answer, unchanged; an object whose [response] is truthy (here, a
    non-empty string) has that [response] as the answer; an object whose
    [response] is absent or falsy is answered with the fallback text "I
    apologize, but I couldn't generate a response.". *)
Theorem model_value_is_normalised (P : Platform) (v : jsval) (w : World)
        (r : ai_response) :
  ai_run P (List.length (ai_calls w)) (build_context (messages w) v)
  = AiReturns r ->
  (forall s : string,
      r = AiText s -> fst (generateAIResponse P v w) = Returned (VString s))
  /\ (forall x : jsval,
         r = AiObject x -> truthy x = true ->
         fst (generateAIResponse P v w) = Returned x)
  /\ (forall x : jsval,
         r = AiObject x -> truthy x = false ->
         fst (generateAIResponse P v w)
         = Returned (VString "I apologize, but I couldn't generate a response.")).
Proof.
  intros Hr. rewrite generateAIResponse_eq, Hr. cbn [fst ai_answer].
  repeat split; intros ? ->; cbn [normalize]; unfold js_or; try reflexivity;
    intros ->; reflexivity.
Qed.

Lemma model_value_is_normalised_witness :
  (forall s : string,
      AiObject (VString "Hi there!") = AiText s ->
      fst (generateAIResponse calm (VString "Hello") fresh)
      = Returned (VString s))
  /\ (forall x : jsval,
         AiObject (VString "Hi there!") = AiObject x -> truthy x = true ->
         fst (generateAIResponse calm (VString "Hello") fresh) = Returned x)
  /\ (forall x : jsval,
         AiObject (VString "Hi there!") = AiObject x -> truthy x = false ->
         fst (generateAIResponse calm (VString "Hello") fresh)
         = Returned (VString "I apologize, but I couldn't generate a response.")).
Proof.
  apply (model_value_is_normalised calm (VString "Hello") fresh
           (AiObject (VString "Hi there!"))).
  reflexivity.
Defined.

(** C7 does not hold as stated: an object whose [response] is the empty
    string does not have that [response] returned. *)
Lemma empty_response_counterexample :
  ai_run ai_mute 0 (build_context (messages fresh) (VString "Hello"))
  = AiReturns (AiObject (VString ""))
  /\ fst (generateAIResponse ai_mute (VString "Hello") fresh)
     = Returned (VString "I apologize, but I couldn't generate a response.")
  /\ fst (generateAIResponse ai_mute (VString "Hello") fresh)
     <> Returned (VString "").
Proof. repeat split. discriminate. Qed.

(** C9.  When the model call returns an object whose [response] is falsy,
    the empty string in particular, the answer is the fallback text "I
    apologize, but I couldn't generate a response.". *)
Theorem falsy_response_falls_back (P : Platform) (v : jsval) (w : World)
        (x : jsval) :
  ai_run P (List.length (ai_calls w)) (build_context (messages w) v)
  = AiReturns (AiObject x) ->
  x = VString "" \/ truthy x = false ->
  fst (generateAIResponse P v w)
  = Returned (VString "I apologize, but I couldn't generate a response.").
Proof.
  intros Hr Hx. rewrite generateAIResponse_eq, Hr.
  assert (Hf : truthy x = false) by (destruct Hx as [->|Hx]; auto).
  cbn [fst ai_answer normalize]. unfold js_or. now rewrite Hf.
Qed.

Lemma falsy_response_falls_back_witness :
  fst (generateAIResponse ai_mute (VString "Hello") fresh)
  = Returned (VString "I apologize, but I couldn't generate a response.").
Proof.
  apply (falsy_response_falls_back ai_mute (VString "Hello") fresh (VString "")).
  - reflexivity.
  - left. reflexivity.
Defined.

(** ** Preflight *)

(** C8, as the code has it.  Once the storage answers the two statements of
    the hydration, an [OPTIONS] request, whatever its path, is answered with
    an empty body, status 200 and the three cross-origin headers; the rows
    of the durable log are unchanged, no message goes to the model, and the
    message array is the log read back in timestamp order. *)
Theorem options_is_preflight (P : Platform) (req : Request) (w : World) :
  method req = "OPTIONS" ->
  no_faults P w 2 ->
  fst (fetch P req w)
  = Returned
      (mkResponse 200
         [("Access-Control-Allow-Origin", "*");
          ("Access-Control-Allow-Methods", "GET, POST, OPTIONS");
          ("Access-Control-Allow-Headers", "Content-Type")]
         NoBody)
  /\ rows (snd (fetch P req w)) = rows w
  /\ ai_calls (snd (fetch P req w)) = ai_calls w
  /\ messages (snd (fetch P req w))
     = map message_of_row (order_by_timestamp (rows w)).
Proof.
  intros Hm Hf. rewrite fetch_options by assumption. repeat split.
Qed.

Lemma options_is_preflight_witness :
  fst (fetch calm (bodyless "OPTIONS" "/anything") woken)
  = Returned
      (mkResponse 200
         [("Access-Control-Allow-Origin", "*");
          ("Access-Control-Allow-Methods", "GET, POST, OPTIONS");
          ("Access-Control-Allow-Headers", "Content-Type")]
         NoBody)
  /\ rows (snd (fetch calm (bodyless "OPTIONS" "/anything") woken)) = rows woken
  /\ ai_calls (snd (fetch calm (bodyless "OPTIONS" "/anything") woken))
     = ai_calls woken
  /\ messages (snd (fetch calm (bodyless "OPTIONS" "/anything") woken))
     = map message_of_row (order_by_timestamp (rows woken)).
Proof.
  apply (options_is_preflight calm (bodyless "OPTIONS" "/anything") woken).
  - reflexivity.
  - intros k _. reflexivity.
Defined.

(** C8 does not hold as stated: an [OPTIONS] request changes the message
    array of an object that has just been woken up on a non-empty log. *)
Lemma options_rehydrates_counterexample :
  messages woken = []
  /\ fst (fetch calm (bodyless "OPTIONS" "/anything") woken)
     = Returned (mkResponse 200 corsHeaders NoBody)
  /\ messages (snd (fetch calm (bodyless "OPTIONS" "/anything") woken))
     = [mkMessage user (VString "Hello") 10;
        mkMessage assistant (VString "Hi there!") 11]
  /\ messages (snd (fetch calm (bodyless "OPTIONS" "/anything") woken))
     <> messages woken.
Proof. repeat split. discriminate. Qed.

(** ** Every outcome of a request *)

Section Outcomes.

Variable P : Platform.

(** [initializeDatabase] returns only when both statements went through,
    and then the object is hydrated. *)
Lemma initializeDatabase_hydrates (w w1 : World) (u : unit) :
  initializeDatabase P w = (Returned u, w1) ->
  w1 = hydrated w /\ no_faults P w 2.
Proof.
  intros H.
  assert (Hf : no_faults P w 2).
  { unfold initializeDatabase, bind, sql_exec, modify in H.
    destruct (sql_fault P (execs w)) eqn:H0; [discriminate|].
    destruct (table w) eqn:E; world_simpl;
      (destruct (sql_fault P (S (execs w))) eqn:H1; [discriminate|]);
      intros k Hk; destruct k as [|[|k]]; simpl; auto; lia. }
  split; [|exact Hf].
  rewrite (initializeDatabase_ok P w Hf) in H. now injection H as _ <-.
Qed.

(** Whatever happens in it, [initializeDatabase] keeps the rows, reads no
    clock and calls no model. *)
Lemma initializeDatabase_frame (w : World) :
  rows (snd (initializeDatabase P w)) = rows w
  /\ ticks (snd (initializeDatabase P w)) = ticks w
  /\ ai_calls (snd (initializeDatabase P w)) = ai_calls w.
Proof.
  unfold initializeDatabase, bind, sql_exec, modify, rows.
  destruct (sql_fault P (execs w)); [world_simpl; auto|].
  destruct (table w) eqn:E; world_simpl;
    (destruct (sql_fault P (S (execs w))); world_simpl; rewrite ?E; auto).
Qed.

Lemma saveMessage_cases (m : Message) (w : World) :
  (exists rs : list Row,
      table w = Some rs
      /\ message_of_row (row_of_message m) = m
      /\ saveMessage P m w
         = (Returned tt,
            mkWorld (messages w ++ [m]) (Some (rs ++ [row_of_message m]))
              (S (execs w)) (ticks w) (ai_calls w)))
  \/ (exists e : exn,
         saveMessage P m w
         = (Thrown e,
            mkWorld (messages w ++ [m]) (table w) (S (execs w)) (ticks w)
              (ai_calls w))).
Proof.
  unfold saveMessage, bind, modify, sql_exec, ret; world_simpl.
  destruct (sql_fault P (execs w)); [right; eauto|].
  destruct (table w) as [rs|] eqn:E; [|right; eauto].
  destruct m as [r [| |s] t]; cbn; [right; eauto|right; eauto|].
  left. exists rs. auto.
Qed.

(** The four ways a [/chat] ends.  [handleChat] always answers: the body
    threw, or the insert of the user message threw, or the insert of the
    assistant message threw, or both went through. *)
Lemma handleChat_cases (req : Request) (w : World) :
  exists (resp : Response) (w' : World),
    handleChat P req corsHeaders w = (Returned resp, w')
    /\ ((exists e : exn,
            request_json req = BodyThrows e
            /\ resp = json_response 500 corsHeaders (chat_failure e)
            /\ w' = w)
        \/ (exists (v : jsval) (e : exn),
               request_json req = BodyValue v
               /\ resp = json_response 500 corsHeaders (chat_failure e)
               /\ w' = mkWorld (messages w ++ [user_turn P w v]) (table w)
                         (S (execs w)) (S (ticks w)) (ai_calls w))
        \/ (exists (v : jsval) (e : exn) (rs : list Row) (a : Message),
               request_json req = BodyValue v
               /\ table w = Some rs
               /\ role a = assistant
               /\ timestamp a = date_now P (S (ticks w))
               /\ resp = json_response 500 corsHeaders (chat_failure e)
               /\ w' = mkWorld (messages w ++ [user_turn P w v; a])
                         (Some (rs ++ [row_of_message (user_turn P w v)]))
                         (S (S (execs w))) (S (S (ticks w)))
                         (ai_calls w
                          ++ [build_context (messages w ++ [user_turn P w v]) v]))
        \/ (exists (v : jsval) (rs : list Row) (a : Message),
               request_json req = BodyValue v
               /\ table w = Some rs
               /\ role a = assistant
               /\ timestamp a = date_now P (S (ticks w))
               /\ message_of_row (row_of_message (user_turn P w v))
                  = user_turn P w v
               /\ message_of_row (row_of_message a) = a
               /\ resp = json_response 200 corsHeaders
                          (chat_success (user_turn P w v) a
                             (List.length (messages w) + 2))
               /\ w' = mkWorld (messages w ++ [user_turn P w v; a])
                         (Some (rs ++ [row_of_message (user_turn P w v);
                                       row_of_message a]))
                         (S (S (execs w))) (S (S (ticks w)))
                         (ai_calls w
                          ++ [build_context (messages w ++ [user_turn P w v]) v]))).
Proof.
  unfold handleChat, try_catch.
  destruct (request_json req) as [e|v] eqn:Hb.
  { eexists _, _. split; [reflexivity|]. left. eauto. }
  unfold bind at 1. unfold ret at 1.
  unfold bind at 1. unfold Date_now at 1.
  unfold bind at 1. fold (user_turn P w v).
  destruct (saveMessage_cases (user_turn P w v) (count_tick w))
    as [(rs & Ht & Hr & Hs)|(e & Hs)]; rewrite Hs.
  2:{ eexists _, _. split; [reflexivity|]. right; left.
      exists v, e. repeat split. }
  unfold bind at 1. rewrite generateAIResponse_eq.
  unfold bind at 1. unfold Date_now at 1.
  unfold bind at 1.
  cbn [messages ai_calls ticks execs table record_ai_call count_tick] in *.
  match goal with |- context [saveMessage P ?m ?w0] =>
    destruct (saveMessage_cases m w0) as [(rs' & Ht' & Hr' & Hs')|(e & Hs')];
      rewrite Hs' end.
  - cbn [table] in Ht'. injection Ht' as <-.
    eexists _, _. split; [reflexivity|]. right; right; right.
    exists v, rs,
      (mkMessage assistant
               (ai_answer
                  (ai_run P (List.length (ai_calls w))
                     (build_context (messages w ++ [user_turn P w v]) v)))
               (date_now P (S (ticks w)))).
    repeat split; try eassumption; try reflexivity;
      cbn [messages table execs ticks ai_calls count_tick record_ai_call].
    + assert (Hlen : forall (l : list Message) (x y : Message),
                 List.length ((l ++ [x]) ++ [y]) = List.length l + 2)
        by (intros; rewrite !length_app; simpl; lia).
      rewrite Hlen. reflexivity.
    + rewrite <- ?app_assoc; reflexivity.
  - eexists _, _. split; [reflexivity|]. right; right; left.
    exists v, e, rs,
      (mkMessage assistant
               (ai_answer
                  (ai_run P (List.length (ai_calls w))
                     (build_context (messages w ++ [user_turn P w v]) v)))
               (date_now P (S (ticks w)))).
    repeat split; try eassumption; try reflexivity;
      cbn [messages table execs ticks ai_calls count_tick record_ai_call].
    rewrite <- ?app_assoc; reflexivity.
Qed.

End Outcomes.

(** ** Routing *)

Lemma route_spec (a b c d : string) :
  reflect (a = b /\ c = d) ((a =? b) && (c =? d)).
Proof.
  destruct (String.eqb_spec a b), (String.eqb_spec c d); simpl;
    constructor; tauto.
Qed.

Section Routing.

Variable P : Platform.

Lemma fetch_dispatch (req : Request) (w : World) :
  no_faults P w 2 -> fetch P req w = dispatch P req (hydrated w).
Proof.
  intros Hf. unfold fetch, bind. now rewrite (initializeDatabase_ok P w Hf).
Qed.

Lemma fetch_init_thrown (req : Request) (w w1 : World) (e : exn) :
  initializeDatabase P w = (Thrown e, w1) -> fetch P req w = (Thrown e, w1).
Proof. intros Hi. unfold fetch, bind. now rewrite Hi. Qed.

(** A request ends in the hydration, or goes on to its route from the
    hydrated object. *)
Lemma fetch_cases (req : Request) (w : World) :
  (exists e : exn,
      fetch P req w = (Thrown e, snd (initializeDatabase P w))
      /\ messages (snd (initializeDatabase P w)) = messages w)
  \/ (no_faults P w 2 /\ fetch P req w = dispatch P req (hydrated w)).
Proof.
  destruct (initializeDatabase P w) as [[u|e] w1] eqn:Hi.
  - right. apply initializeDatabase_hydrates in Hi as [_ Hf].
    split; [exact Hf|]. now apply fetch_dispatch.
  - left. exists e. split; [now apply fetch_init_thrown|].
    now apply initializeDatabase_thrown in Hi as [Hm _].
Qed.

Lemma dispatch_miss (req : Request) (w : World) :
  ~ is_preflight req -> ~ is_chat req -> ~ is_history req -> ~ is_clear req ->
  dispatch P req w
  = (Returned (mkResponse 404 corsHeaders (TextBody "Not found")), w).
Proof.
  unfold is_preflight, is_chat, is_history, is_clear, dispatch.
  intros Ho Hc Hh Hl.
  destruct (String.eqb_spec (method req) "OPTIONS"); [contradiction|].
  destruct (route_spec (pathname req) "/chat" (method req) "POST");
    [contradiction|].
  destruct (route_spec (pathname req) "/history" (method req) "GET");
    [contradiction|].
  destruct (route_spec (pathname req) "/clear" (method req) "POST");
    [contradiction|].
  reflexivity.
Qed.

(** The shapes a response can have. *)
Lemma dispatch_shape (req : Request) (w w' : World) (resp : Response) :
  dispatch P req w = (Returned resp, w') ->
  resp = mkResponse 200 corsHeaders NoBody
  \/ resp = mkResponse 404 corsHeaders (TextBody "Not found")
  \/ exists j : json,
      resp = json_response 200 corsHeaders j
      \/ resp = json_response 500 corsHeaders j.
Proof.
  unfold dispatch.
  destruct (method req =? "OPTIONS"); [intros [= <- _]; auto|].
  destruct ((pathname req =? "/chat") && (method req =? "POST")).
  { destruct (handleChat_cases P req w) as (r & w1 & Hc & Hcases).
    rewrite Hc. intros [= <- _]. right; right.
    destruct Hcases as [(e & _ & -> & _)|[(v & e & _ & -> & _)
      |[(v & e & rs & a & _ & _ & _ & _ & -> & _)
       |(v & rs & a & _ & _ & _ & _ & _ & _ & -> & _)]]]; eauto. }
  destruct ((pathname req =? "/history") && (method req =? "GET")).
  { intros [= <- _]. right; right. eauto. }
  destruct ((pathname req =? "/clear") && (method req =? "POST")).
  { unfold handleClear, bind, sql_exec, modify, ret.
    destruct (sql_fault P (execs w)); [discriminate|].
    destruct (table w); [|discriminate].
    intros [= <- _]. right; right. eauto. }
  intros [= <- _]. auto.
Qed.

Lemma fetch_shape (req : Request) (w w' : World) (resp : Response) :
  fetch P req w = (Returned resp, w') ->
  resp = mkResponse 200 corsHeaders NoBody
  \/ resp = mkResponse 404 corsHeaders (TextBody "Not found")
  \/ exists j : json,
      resp = json_response 200 corsHeaders j
      \/ resp = json_response 500 corsHeaders j.
Proof.
  destruct (fetch_cases req w) as [(e & -> & _)|[_ ->]]; [discriminate|].
  apply dispatch_shape.
Qed.

End Routing.

(** X1.  Once the object is hydrated, a request that is not a preflight and
    matches none of the three routes is answered with status 404 and the
    plain text "Not found", under the cross-origin headers; the rows of the
    durable log are left as they were. *)
Theorem routing_miss_is_404 (P : Platform) (req : Request) (w : World) :
  ~ is_preflight req -> ~ is_chat req -> ~ is_history req -> ~ is_clear req ->
  no_faults P w 2 ->
  fst (fetch P req w)
  = Returned (mkResponse 404 corsHeaders (TextBody "Not found"))
  /\ rows (snd (fetch P req w)) = rows w.
Proof.
  intros Ho Hc Hh Hl Hf.
  rewrite (fetch_dispatch P req w Hf), dispatch_miss by assumption.
  split; reflexivity.
Qed.

Lemma routing_miss_is_404_witness :
  fst (fetch calm (bodyless "GET" "/chat") woken)
  = Returned (mkResponse 404 corsHeaders (TextBody "Not found"))
  /\ rows (snd (fetch calm (bodyless "GET" "/chat") woken)) = rows woken.
Proof.
  apply (routing_miss_is_404 calm (bodyless "GET" "/chat") woken).
  - unfold is_preflight; simpl; discriminate.
  - unfold is_chat; simpl; intros [_ H]; discriminate.
  - unfold is_history; simpl; intros [H _]; discriminate.
  - unfold is_clear; simpl; intros [H _]; discriminate.
  - intros k _. reflexivity.
Defined.

(** X2.  Every response that [fetch] returns carries the three cross-origin
    headers, whatever the route and whatever failed on the way. *)
Theorem every_response_has_cors (P : Platform) (req : Request) (w w' : World)
        (resp : Response) :
  fetch P req w = (Returned resp, w') ->
  In ("Access-Control-Allow-Origin", "*") (headers resp)
  /\ In ("Access-Control-Allow-Methods", "GET, POST, OPTIONS") (headers resp)
  /\ In ("Access-Control-Allow-Headers", "Content-Type") (headers resp).
Proof.
  intros H. apply fetch_shape in H.
  destruct H as [->|[->|(j & [->| ->])]]; simpl; tauto.
Qed.

Lemma every_response_has_cors_witness :
  In ("Access-Control-Allow-Origin", "*")
    (headers (mkResponse 404 corsHeaders (TextBody "Not found")))
  /\ In ("Access-Control-Allow-Methods", "GET, POST, OPTIONS")
       (headers (mkResponse 404 corsHeaders (TextBody "Not found")))
  /\ In ("Access-Control-Allow-Headers", "Content-Type")
       (headers (mkResponse 404 corsHeaders (TextBody "Not found"))).
Proof.
  apply (every_response_has_cors calm (bodyless "GET" "/unknown") fresh
           (snd (fetch calm (bodyless "GET" "/unknown") fresh))).
  reflexivity.
Defined.

(** X3.  A response of [fetch] has status 200, 404 or 500, and it carries
    the header [Content-Type: application/json] exactly when its body is a
    JSON document. *)
Theorem json_responses_are_typed (P : Platform) (req : Request) (w w' : World)
        (resp : Response) :
  fetch P req w = (Returned resp, w') ->
  (status resp = 200 \/ status resp = 404 \/ status resp = 500)%Z
  /\ (In ("Content-Type", "application/json") (headers resp)
      <-> exists j : json, body resp = JsonBody j).
Proof.
  intros H. apply fetch_shape in H.
  destruct H as [->|[->|(j & [->| ->])]]; simpl; (split; [tauto|]);
    split; try (intros _; eauto; tauto);
    try (intros [[=]|[[=]|[[=]|[]]]]); try (intros [j [=]]).
Qed.

Lemma json_responses_are_typed_witness :
  (status (json_response 200 corsHeaders (history_json [])) = 200
   \/ status (json_response 200 corsHeaders (history_json [])) = 404
   \/ status (json_response 200 corsHeaders (history_json [])) = 500)%Z
  /\ (In ("Content-Type", "application/json")
        (headers (json_response 200 corsHeaders (history_json [])))
      <-> exists j : json,
          body (json_response 200 corsHeaders (history_json [])) = JsonBody j).
Proof.
  apply (json_responses_are_typed calm history_request fresh
           (snd (fetch calm history_request fresh))).
  reflexivity.
Defined.

(** ** Answering and throwing *)

(** X4.  [handleChat] never throws: whatever the body, the storage and the
    model do, it returns a response, and that response is a JSON document
    on status 200 or 500. *)
Theorem handleChat_always_answers (P : Platform) (req : Request) (w : World) :
  exists (st : Z) (j : json),
    fst (handleChat P req corsHeaders w)
    = Returned (json_response st corsHeaders j)
    /\ (st = 200 \/ st = 500)%Z.
Proof.
  destruct (handleChat_cases P req w) as (r & w1 & Hc & Hcases).
  rewrite Hc. cbn [fst].
  destruct Hcases as [(e & _ & -> & _)|[(v & e & _ & -> & _)
    |[(v & e & rs & a & _ & _ & _ & _ & -> & _)
     |(v & rs & a & _ & _ & _ & _ & _ & _ & -> & _)]]];
    eexists _, _; (split; [reflexivity|]); auto.
Qed.

(** X5.  [fetch] throws only out of the storage: when the two statements of
    the hydration and the one that may follow them in [handleClear] do not
    fail, every request gets a response. *)
Theorem fetch_answers_when_storage_works (P : Platform) (req : Request)
        (w : World) :
  no_faults P w 3 ->
  exists resp : Response, fst (fetch P req w) = Returned resp.
Proof.
  intros Hf.
  assert (Hf2 : no_faults P w 2) by (intros k Hk; apply Hf; lia).
  rewrite (fetch_dispatch P req w Hf2). unfold dispatch.
  destruct (method req =? "OPTIONS"); [eexists; reflexivity|].
  destruct ((pathname req =? "/chat") && (method req =? "POST")).
  { destruct (handleChat_cases P req (hydrated w)) as (r & w1 & Hc & _).
    rewrite Hc. eexists; reflexivity. }
  destruct ((pathname req =? "/history") && (method req =? "GET"));
    [eexists; reflexivity|].
  destruct ((pathname req =? "/clear") && (method req =? "POST"));
    [|eexists; reflexivity].
  pose proof (Hf 2 ltac:(lia)) as H2. simpl in H2.
  unfold handleClear, bind, sql_exec, modify, ret. cbn.
  rewrite H2. eexists; reflexivity.
Qed.

Lemma fetch_answers_when_storage_works_witness :
  exists resp : Response, fst (fetch calm clear_request woken) = Returned resp.
Proof.
  apply (fetch_answers_when_storage_works calm clear_request woken).
  intros k _. reflexivity.
Defined.

(** X6.  When one of the two statements of [initializeDatabase] fails, the
    request ends with that error whatever its method and path, a preflight
    included: no response is built, and the message array and the rows are
    left as they were. *)
Theorem hydration_failure_is_uncaught (P : Platform) (req : Request)
        (w : World) (e : exn) :
  sql_fault P (execs w) = Some e
  \/ (sql_fault P (execs w) = None /\ sql_fault P (S (execs w)) = Some e) ->
  fst (fetch P req w) = Thrown e
  /\ messages (snd (fetch P req w)) = messages w
  /\ rows (snd (fetch P req w)) = rows w.
Proof.
  intros H.
  assert (Hi : fst (initializeDatabase P w) = Thrown e).
  { unfold initializeDatabase, bind, sql_exec, modify.
    destruct H as [H0|[H0 H1]]; rewrite H0; [reflexivity|].
    destruct (table w) eqn:E; world_simpl; rewrite H1; reflexivity. }
  destruct (initializeDatabase P w) as [o w1] eqn:Hw. cbn [fst] in Hi. subst o.
  rewrite (fetch_init_thrown P req w w1 e Hw). cbn [fst snd].
  apply initializeDatabase_thrown in Hw. tauto.
Qed.

Lemma hydration_failure_is_uncaught_witness :
  fst (fetch (faulty 1) (bodyless "OPTIONS" "/chat") woken)
  = Thrown (JsError "disk I/O error")
  /\ messages (snd (fetch (faulty 1) (bodyless "OPTIONS" "/chat") woken))
     = messages woken
  /\ rows (snd (fetch (faulty 1) (bodyless "OPTIONS" "/chat") woken))
     = rows woken.
Proof.
  apply (hydration_failure_is_uncaught (faulty 1)
           (bodyless "OPTIONS" "/chat") woken).
  right. split; reflexivity.
Defined.

(** ** What the hydration reads *)

Lemma insert_row_perm (r : Row) (l : list Row) :
  Permutation (insert_row r l) (r :: l).
Proof.
  induction l as [|x xs IH]; simpl; [reflexivity|].
  destruct (row_timestamp r <? row_timestamp x)%Z; [reflexivity|].
  rewrite IH. apply perm_swap.
Qed.

Lemma order_by_timestamp_perm (l : list Row) :
  Permutation (order_by_timestamp l) l.
Proof.
  induction l as [|r l IH] using rev_ind; [reflexivity|].
  rewrite order_by_timestamp_snoc, insert_row_perm, IH.
  apply Permutation_cons_append.
Qed.

Lemma order_by_timestamp_length (l : list Row) :
  List.length (order_by_timestamp l) = List.length l.
Proof. apply Permutation_length, order_by_timestamp_perm. Qed.

Lemma strongly_sorted_snoc (l : list Row) (r : Row) :
  StronglySorted row_le (l ++ [r]) ->
  StronglySorted row_le l
  /\ Forall (fun x => (row_timestamp x <= row_timestamp r)%Z) l.
Proof.
  induction l as [|x xs IH]; simpl; intros H.
  - split; constructor.
  - apply StronglySorted_inv in H as [Hs Hx].
    destruct (IH Hs) as [Hs' Hle]. split.
    + constructor; [exact Hs'|].
      apply Forall_app in Hx. tauto.
    + constructor; [|exact Hle].
      apply Forall_app in Hx as [_ Hr]. now inversion Hr.
Qed.

Lemma row_le_trans : Relations_1.Transitive row_le.
Proof. intros a b c. unfold row_le. lia. Qed.

Lemma order_by_timestamp_sorted_id (l : list Row) :
  Sorted row_le l -> order_by_timestamp l = l.
Proof.
  intros Hs. apply (Sorted_StronglySorted row_le_trans) in Hs.
  induction l as [|r l IH] using rev_ind; [reflexivity|].
  apply strongly_sorted_snoc in Hs as [Hs Hle].
  rewrite order_by_timestamp_snoc, (IH Hs). now apply insert_row_last.
Qed.

(** X7.  A hydration that goes through loads every stored row exactly once
    (the array is a permutation of the rows, as messages) and in
    non-decreasing order of timestamp, whatever the array held before. *)
Theorem hydration_loads_every_row_in_order (P : Platform) (w : World) :
  no_faults P w 2 ->
  fst (initializeDatabase P w) = Returned tt
  /\ Permutation (messages (snd (initializeDatabase P w)))
       (map message_of_row (rows w))
  /\ Sorted Z.le (map timestamp (messages (snd (initializeDatabase P w)))).
Proof.
  intros Hf. rewrite (initializeDatabase_ok P w Hf). cbn [fst snd hydrated messages].
  split; [reflexivity|]. split.
  - unfold hydrated_cache. apply Permutation_map, order_by_timestamp_perm.
  - apply hydrated_cache_sorted.
Qed.

Lemma hydration_loads_every_row_in_order_witness :
  fst (initializeDatabase calm woken) = Returned tt
  /\ Permutation (messages (snd (initializeDatabase calm woken)))
       (map message_of_row (rows woken))
  /\ Sorted Z.le (map timestamp (messages (snd (initializeDatabase calm woken)))).
Proof.
  apply (hydration_loads_every_row_in_order calm woken).
  intros k _. reflexivity.
Defined.

(** X8.  When the stored rows are in non-decreasing order of timestamp, rows
    of equal timestamp included, a hydration that goes through loads them
    in the order they were inserted. *)
Theorem hydration_keeps_insertion_order (P : Platform) (w : World) :
  no_faults P w 2 ->
  Sorted row_le (rows w) ->
  messages (snd (initializeDatabase P w)) = map message_of_row (rows w).
Proof.
  intros Hf Hs. rewrite (initializeDatabase_ok P w Hf). cbn [snd hydrated messages].
  unfold hydrated_cache. now rewrite order_by_timestamp_sorted_id.
Qed.

Lemma hydration_keeps_insertion_order_witness :
  messages (snd (initializeDatabase calm woken))
  = map message_of_row (rows woken).
Proof.
  apply (hydration_keeps_insertion_order calm woken).
  - intros k _. reflexivity.
  - repeat constructor; unfold row_le; simpl; lia.
Defined.

(** ** Reading the history *)

Lemma hydrated_cache_length (w : World) :
  List.length (hydrated_cache w) = List.length (rows w).
Proof.
  unfold hydrated_cache. now rewrite length_map, order_by_timestamp_length.
Qed.

(** X9.  Once the object is hydrated, a [GET /history] is answered with
    status 200, the stored messages in timestamp order, and a [count] that
    is the number of rows of the durable log; the rows are not changed. *)
Theorem history_counts_the_rows (P : Platform) (req : Request) (w : World) :
  is_history req ->
  no_faults P w 2 ->
  fst (fetch P req w)
  = Returned
      (json_response 200 corsHeaders
         (JObj [("success", JBool true);
                ("messages",
                 JArr (map json_of_message
                         (map message_of_row (order_by_timestamp (rows w)))));
                ("count", JNum (Z.of_nat (List.length (rows w))))]))
  /\ rows (snd (fetch P req w)) = rows w.
Proof.
  intros [Hp Hm] Hf. rewrite fetch_history by assumption.
  cbn [fst snd]. unfold history_json. rewrite hydrated_cache_length.
  split; reflexivity.
Qed.

Lemma history_counts_the_rows_witness :
  fst (fetch calm history_request woken)
  = Returned
      (json_response 200 corsHeaders
         (JObj [("success", JBool true);
                ("messages",
                 JArr (map json_of_message
                         (map message_of_row
                            (order_by_timestamp (rows woken)))));
                ("count", JNum (Z.of_nat (List.length (rows woken))))]))
  /\ rows (snd (fetch calm history_request woken)) = rows woken.
Proof.
  apply (history_counts_the_rows calm history_request woken).
  - split; reflexivity.
  - intros k _. reflexivity.
Defined.

(** ** Sending *)

(** X10.  A well-formed send on a working storage adds exactly two rows at
    the end of the durable log, the user's text and then the assistant's
    answer, each under the clock reading taken for it, and the
    [messageCount] of the response is the new number of rows. *)
Theorem send_appends_two_rows (P : Platform) (req : Request) (w : World)
        (s : string) :
  is_chat req ->
  request_json req = BodyValue (VString s) ->
  no_faults P w 4 ->
  exists answer : string,
    fst (fetch P req w)
    = Returned
        (json_response 200 corsHeaders
           (chat_success
              (mkMessage user (VString s) (date_now P (ticks w)))
              (mkMessage assistant (VString answer) (date_now P (S (ticks w))))
              (List.length (rows w) + 2)))
    /\ rows (snd (fetch P req w))
       = rows w ++ [row_of user s (date_now P (ticks w));
                    row_of assistant answer (date_now P (S (ticks w)))].
Proof.
  intros [Hp Hm] Hb Hf.
  rewrite (fetch_chat_ok P req w s) by assumption.
  unfold assistant_turn, user_turn.
  set (o := ai_run P _ _). exists (text_of (ai_answer o)).
  rewrite <- (ai_answer_text o), length_app, hydrated_cache_length.
  cbn [fst snd rows table]. split; [reflexivity|].
  unfold row_of_message. reflexivity.
Qed.

Lemma send_appends_two_rows_witness :
  exists answer : string,
    fst (fetch calm (send "How are you?") woken)
    = Returned
        (json_response 200 corsHeaders
           (chat_success
              (mkMessage user (VString "How are you?")
                 (date_now calm (ticks woken)))
              (mkMessage assistant (VString answer)
                 (date_now calm (S (ticks woken))))
              (List.length (rows woken) + 2)))
    /\ rows (snd (fetch calm (send "How are you?") woken))
       = rows woken
         ++ [row_of user "How are you?" (date_now calm (ticks woken));
             row_of assistant answer (date_now calm (S (ticks woken)))].
Proof.
  apply (send_appends_two_rows calm (send "How are you?") woken).
  - split; reflexivity.
  - reflexivity.
  - intros k _. reflexivity.
Defined.

(** X11.  When the insert of the assistant message fails, the send is
    answered with the failure envelope on status 500 although the model was
    called, and the user's row stays in the durable log without an
    answer. *)
Theorem assistant_insert_failure_keeps_user_row (P : Platform) (req : Request)
        (w : World) (s : string) (e : exn) :
  is_chat req ->
  request_json req = BodyValue (VString s) ->
  no_faults P w 3 ->
  sql_fault P (3 + execs w) = Some e ->
  fst (fetch P req w)
  = Returned (json_response 500 corsHeaders (chat_failure e))
  /\ rows (snd (fetch P req w))
     = rows w ++ [row_of user s (date_now P (ticks w))]
  /\ ai_calls (snd (fetch P req w))
     = ai_calls w ++ [context_sent P w (VString s)].
Proof.
  intros [Hp Hm] Hb Hf He.
  assert (Hf2 : no_faults P w 2) by (intros k Hk; apply Hf; lia).
  pose proof (Hf 2 ltac:(lia)) as H2. simpl in H2, He.
  assert (H : exists w' : World,
             fetch P req w
             = (Returned (json_response 500 corsHeaders (chat_failure e)), w')
             /\ rows w' = rows w ++ [row_of user s (date_now P (ticks w))]
             /\ ai_calls w' = ai_calls w ++ [context_sent P w (VString s)]).
  { rewrite fetch_chat by assumption.
    unfold handleChat, try_catch. rewrite Hb.
    unfold bind at 1. unfold ret at 1.
    unfold bind at 1. unfold Date_now at 1.
    unfold bind at 1.
    rewrite (saveMessage_ok P _ (rows w)) by (world_simpl; auto).
    unfold bind at 1. rewrite generateAIResponse_eq.
    unfold bind at 1. unfold Date_now at 1.
    unfold bind at 1.
    rewrite saveMessage_fault with (e := e) by (world_simpl; assumption).
    eexists. split; [reflexivity|]. split; reflexivity. }
  destruct H as (w' & -> & Hr & Ha). auto.
Qed.

Lemma assistant_insert_failure_keeps_user_row_witness :
  fst (fetch (faulty 3) (send "Hello") fresh)
  = Returned (json_response 500 corsHeaders
                (chat_failure (JsError "disk I/O error")))
  /\ rows (snd (fetch (faulty 3) (send "Hello") fresh))
     = rows fresh ++ [row_of user "Hello" (date_now (faulty 3) (ticks fresh))]
  /\ ai_calls (snd (fetch (faulty 3) (send "Hello") fresh))
     = ai_calls fresh ++ [context_sent (faulty 3) fresh (VString "Hello")].
Proof.
  apply (assistant_insert_failure_keeps_user_row (faulty 3) (send "Hello")
           fresh "Hello").
  - split; reflexivity.
  - reflexivity.
  - intros k Hk. destruct k as [|[|[|k]]]; [reflexivity..|lia].
  - reflexivity.
Defined.

(** X12.  A send whose user message could not be inserted leaves no trace:
    the history read right after it is the history that would have been
    read in its place. *)
Theorem failed_send_leaves_no_trace (P : Platform) (sreq hreq : Request)
        (w : World) (s : string) (e : exn) :
  is_chat sreq ->
  request_json sreq = BodyValue (VString s) ->
  is_history hreq ->
  no_faults P w 2 ->
  sql_fault P (2 + execs w) = Some e ->
  sql_fault P (3 + execs w) = None ->
  sql_fault P (4 + execs w) = None ->
  fst (fetch P sreq w)
  = Returned (json_response 500 corsHeaders (chat_failure e))
  /\ fst (fetch P hreq (snd (fetch P sreq w))) = fst (fetch P hreq w).
Proof.
  intros [Hp Hm] Hb [Hhp Hhm] Hf He H3 H4.
  rewrite (fetch_history P hreq w) by assumption.
  rewrite fetch_chat by assumption.
  erewrite handleChat_user_insert_thrown;
    [|exact Hb|apply saveMessage_fault; exact He].
  cbn [fst snd]. split; [reflexivity|].
  rewrite fetch_history; try assumption.
  - reflexivity.
  - intros k Hk. destruct k as [|[|k]]; [exact H3|exact H4|lia].
Qed.

Lemma failed_send_leaves_no_trace_witness :
  fst (fetch (faulty 2) (send "Hello") woken)
  = Returned (json_response 500 corsHeaders
                (chat_failure (JsError "disk I/O error")))
  /\ fst (fetch (faulty 2) history_request
            (snd (fetch (faulty 2) (send "Hello") woken)))
     = fst (fetch (faulty 2) history_request woken).
Proof.
  apply (failed_send_leaves_no_trace (faulty 2) (send "Hello") history_request
           woken "Hello"); try reflexivity; try (split; reflexivity).
  intros k Hk. destruct k as [|[|k]]; [reflexivity..|lia].
Defined.

(** ** The model call *)

(** X13.  [generateAIResponse] never throws and always answers with a
    string, also when the model call throws; it makes exactly one model
    call and touches neither the message array nor the table. *)
Theorem generateAIResponse_always_answers (P : Platform) (v : jsval)
        (w : World) :
  exists answer : string,
    fst (generateAIResponse P v w) = Returned (VString answer)
    /\ ai_calls (snd (generateAIResponse P v w))
       = ai_calls w ++ [build_context (messages w) v]
    /\ messages (snd (generateAIResponse P v w)) = messages w
    /\ table (snd (generateAIResponse P v w)) = table w.
Proof.
  rewrite generateAIResponse_eq. set (o := ai_run P _ _).
  exists (text_of (ai_answer o)). rewrite <- ai_answer_text.
  repeat split.
Qed.

Lemma slice_last_suffix {A : Type} (n : nat) (l : list A) :
  firstn (List.length l - n) l ++ slice_last n l = l.
Proof. unfold slice_last. apply firstn_skipn. Qed.

Lemma slice_last_length_eq {A : Type} (n : nat) (l : list A) :
  List.length (slice_last n l) = Nat.min n (List.length l).
Proof. unfold slice_last. rewrite length_skipn. lia. Qed.

(** X14.  The list built for the model from an array and a text starts
    with the system instruction, ends with the text as a user message, and
    holds in between the last ten messages of the array in their order,
    all of them when the array has ten or fewer; so it has two messages
    more than the smaller of ten and the length of the array. *)
Theorem build_context_window (cache : list Message) (v : jsval) :
  exists older recent : list Message,
    cache = older ++ recent
    /\ List.length recent = Nat.min 10 (List.length cache)
    /\ build_context cache v
       = mkTurn system (VString system_prompt)
         :: map (fun m => mkTurn (role m) (content m)) recent
         ++ [mkTurn user v]
    /\ List.length (build_context cache v)
       = 2 + Nat.min 10 (List.length cache).
Proof.
  exists (firstn (List.length cache - 10) cache), (slice_last 10 cache).
  split; [symmetry; apply slice_last_suffix|].
  split; [apply slice_last_length_eq|].
  split; [reflexivity|].
  unfold build_context. cbn [app List.length].
  rewrite length_app, length_map, slice_last_length_eq. cbn [List.length]. lia.
Qed.

(** X15.  A well-formed send on a working storage calls the model exactly
    once.  The list it passes holds the system instruction, the last nine
    messages of the hydrated array, and the user's text twice: once as the
    last message of the window, because the message was pushed before the
    window was cut, and once as the closing message.  It never holds more
    than twelve messages. *)
Theorem send_calls_model_once (P : Platform) (req : Request) (w : World)
        (s : string) :
  is_chat req ->
  request_json req = BodyValue (VString s) ->
  no_faults P w 4 ->
  exists sent : list ChatTurn,
    ai_calls (snd (fetch P req w)) = ai_calls w ++ [sent]
    /\ sent
       = mkTurn system (VString system_prompt)
         :: map (fun m => mkTurn (role m) (content m))
              (slice_last 9 (map message_of_row (order_by_timestamp (rows w))))
         ++ [mkTurn user (VString s); mkTurn user (VString s)]
    /\ List.length sent <= 12.
Proof.
  intros [Hp Hm] Hb Hf. exists (context_sent P w (VString s)).
  split; [now apply chat_sends_context|].
  split; [apply context_sent_eq|apply context_sent_length].
Qed.

Lemma send_calls_model_once_witness :
  exists sent : list ChatTurn,
    ai_calls (snd (fetch calm (send "How are you?") woken))
    = ai_calls woken ++ [sent]
    /\ sent
       = mkTurn system (VString system_prompt)
         :: map (fun m => mkTurn (role m) (content m))
              (slice_last 9
                 (map message_of_row (order_by_timestamp (rows woken))))
         ++ [mkTurn user (VString "How are you?");
             mkTurn user (VString "How are you?")]
    /\ List.length sent <= 12.
Proof.
  apply (send_calls_model_once calm (send "How are you?") woken).
  - split; reflexivity.
  - reflexivity.
  - intros k _. reflexivity.
Defined.

(** ** What a request leaves alone *)

Section Frames.

Variable P : Platform.

Lemma handleClear_frame (w : World) :
  ticks (snd (handleClear P corsHeaders w)) = ticks w
  /\ ai_calls (snd (handleClear P corsHeaders w)) = ai_calls w
  /\ (rows (snd (handleClear P corsHeaders w)) = rows w
      \/ rows (snd (handleClear P corsHeaders w)) = []).
Proof.
  unfold handleClear, bind, sql_exec, modify, ret, rows.
  destruct (sql_fault P (execs w)); [cbn; auto|].
  destruct (table w) eqn:E; cbn; rewrite ?E; auto.
Qed.

Lemma hydrated_rows (w : World) : rows (hydrated w) = rows w.
Proof. reflexivity. Qed.

End Frames.

(** X16.  Only a [POST /chat] calls the model or reads the clock: every
    other request, a preflight included, leaves the list of model calls and
    the clock readings as they were, whatever fails on the way. *)
Theorem only_chat_calls_the_model (P : Platform) (req : Request) (w : World) :
  is_preflight req \/ ~ is_chat req ->
  ai_calls (snd (fetch P req w)) = ai_calls w
  /\ ticks (snd (fetch P req w)) = ticks w.
Proof.
  intros H.
  destruct (fetch_cases P req w) as [(e & -> & _)|[_ ->]].
  { cbn [snd]. pose proof (initializeDatabase_frame P w). tauto. }
  unfold dispatch, is_preflight, is_chat in *.
  destruct (String.eqb_spec (method req) "OPTIONS"); [split; reflexivity|].
  destruct (route_spec (pathname req) "/chat" (method req) "POST"); [tauto|].
  destruct ((pathname req =? "/history") && (method req =? "GET"));
    [split; reflexivity|].
  destruct ((pathname req =? "/clear") && (method req =? "POST"));
    [|split; reflexivity].
  pose proof (handleClear_frame P (hydrated w)) as (Ht & Ha & _).
  rewrite Ht, Ha. split; reflexivity.
Qed.

Lemma only_chat_calls_the_model_witness :
  ai_calls (snd (fetch ai_down clear_request woken)) = ai_calls woken
  /\ ticks (snd (fetch ai_down clear_request woken)) = ticks woken.
Proof.
  apply (only_chat_calls_the_model ai_down clear_request woken).
  right. unfold is_chat. simpl. intros [H _]. discriminate.
Defined.

(** X17.  Only a [POST /chat] and a [POST /clear] change the durable log: a
    preflight, a history request and a request that matches no route leave
    its rows as they were, whatever fails on the way. *)
Theorem reads_keep_the_rows (P : Platform) (req : Request) (w : World) :
  is_preflight req \/ (~ is_chat req /\ ~ is_clear req) ->
  rows (snd (fetch P req w)) = rows w.
Proof.
  intros H.
  destruct (fetch_cases P req w) as [(e & -> & _)|[_ ->]].
  { cbn [snd]. pose proof (initializeDatabase_frame P w). tauto. }
  unfold dispatch, is_preflight, is_chat, is_clear in *.
  destruct (String.eqb_spec (method req) "OPTIONS"); [reflexivity|].
  destruct (route_spec (pathname req) "/chat" (method req) "POST"); [tauto|].
  destruct ((pathname req =? "/history") && (method req =? "GET"));
    [reflexivity|].
  destruct (route_spec (pathname req) "/clear" (method req) "POST"); [tauto|].
  reflexivity.
Qed.

Lemma reads_keep_the_rows_witness :
  rows (snd (fetch (faulty 1) history_request woken)) = rows woken.
Proof.
  apply (reads_keep_the_rows (faulty 1) history_request woken).
  right. unfold is_chat, is_clear. simpl.
  split; intros [H _]; discriminate.
Defined.

(** X18.  A [POST /chat] never removes or reorders stored rows: whatever the
    body, the model and the storage do, the durable log after it is the log
    before it followed by at most two new rows. *)
Theorem chat_only_appends (P : Platform) (req : Request) (w : World) :
  is_chat req ->
  exists added : list Row,
    rows (snd (fetch P req w)) = rows w ++ added
    /\ List.length added <= 2.
Proof.
  intros [Hp Hm].
  destruct (fetch_cases P req w) as [(e & -> & _)|[_ ->]].
  { exists []. cbn [snd]. rewrite app_nil_r.
    pose proof (initializeDatabase_frame P w). split; [tauto|simpl; lia]. }
  unfold dispatch. rewrite Hp, Hm. cbn [String.eqb Ascii.eqb Bool.eqb andb].
  destruct (handleChat_cases P req (hydrated w)) as (r & w1 & Hc & Hcases).
  rewrite Hc. cbn [snd].
  destruct Hcases as [(e & _ & _ & ->)|[(v & e & _ & _ & ->)
    |[(v & e & rs & a & _ & Ht & _ & _ & _ & ->)
     |(v & rs & a & _ & Ht & _ & _ & _ & _ & _ & ->)]]].
  - exists []. rewrite app_nil_r. split; [reflexivity|simpl; lia].
  - exists []. rewrite app_nil_r. split; [reflexivity|simpl; lia].
  - injection Ht as <-. eexists. split; [reflexivity|simpl; lia].
  - injection Ht as <-. eexists. split; [reflexivity|simpl; lia].
Qed.

Lemma chat_only_appends_witness :
  exists added : list Row,
    rows (snd (fetch (faulty 3) (send "Hello") woken)) = rows woken ++ added
    /\ List.length added <= 2.
Proof.
  apply (chat_only_appends (faulty 3) (send "Hello") woken).
  split; reflexivity.
Defined.

(** ** The log stays in clock order *)

Lemma clock_order_frame (P : Platform) (w w' : World) :
  monotone_clock P ->
  rows w' = rows w ->
  ticks w <= ticks w' ->
  log_in_clock_order P w ->
  log_in_clock_order P w'.
Proof.
  intros Hmono Hr Ht [Ho Hle]. split; rewrite Hr; [exact Ho|].
  eapply Forall_impl; [|exact Hle]. cbn beta. intros r Hrle.
  pose proof (Hmono _ _ Ht). lia.
Qed.

Lemma clock_order_empty (P : Platform) (w' : World) :
  rows w' = [] -> log_in_clock_order P w'.
Proof. intros Hr. split; rewrite Hr; constructor. Qed.

Lemma clock_order_one (P : Platform) (w w' : World) (ru : Row) :
  monotone_clock P ->
  row_timestamp ru = date_now P (ticks w) ->
  rows w' = rows w ++ [ru] ->
  ticks w <= ticks w' ->
  log_in_clock_order P w ->
  log_in_clock_order P w'.
Proof.
  intros Hmono Hu Hr Ht [Ho Hle]. pose proof (Hmono _ _ Ht) as Hd.
  split; rewrite Hr.
  - rewrite order_by_timestamp_snoc, Ho. apply insert_row_last.
    now rewrite Hu.
  - apply Forall_app; split.
    + eapply Forall_impl; [|exact Hle]. cbn beta. intros; lia.
    + repeat constructor. lia.
Qed.

Lemma clock_order_two (P : Platform) (w w' : World) (ru ra : Row) :
  monotone_clock P ->
  row_timestamp ru = date_now P (ticks w) ->
  row_timestamp ra = date_now P (S (ticks w)) ->
  rows w' = rows w ++ [ru; ra] ->
  S (ticks w) <= ticks w' ->
  log_in_clock_order P w ->
  log_in_clock_order P w'.
Proof.
  intros Hmono Hu Ha Hr Ht [Ho Hle].
  pose proof (Hmono _ _ Ht) as Hd.
  pose proof (Hmono (ticks w) (S (ticks w)) ltac:(lia)) as H01.
  split; rewrite Hr.
  - apply order_by_timestamp_two; [exact Ho|now rewrite Hu|lia].
  - apply Forall_app; split.
    + eapply Forall_impl; [|exact Hle]. cbn beta. intros; lia.
    + repeat constructor; lia.
Qed.

(** Every request keeps the log in clock order. *)
Lemma fetch_keeps_clock_order (P : Platform) (req : Request) (w : World) :
  monotone_clock P ->
  log_in_clock_order P w ->
  log_in_clock_order P (snd (fetch P req w)).
Proof.
  intros Hmono Hw.
  destruct (fetch_cases P req w) as [(e & -> & _)|[_ ->]].
  { cbn [snd]. pose proof (initializeDatabase_frame P w) as (Hr & Ht & _).
    apply (clock_order_frame P w); auto. lia. }
  unfold dispatch.
  destruct (method req =? "OPTIONS");
    [apply (clock_order_frame P w); auto|].
  destruct ((pathname req =? "/chat") && (method req =? "POST")).
  { destruct (handleChat_cases P req (hydrated w)) as (r & w1 & Hc & Hcases).
    rewrite Hc. cbn [snd].
    destruct Hcases as [(e & _ & _ & ->)|[(v & e & _ & _ & ->)
      |[(v & e & rs & a & _ & Ht & _ & _ & _ & ->)
       |(v & rs & a & _ & Ht & _ & Hta & _ & _ & _ & ->)]]].
    - apply (clock_order_frame P w); auto.
    - apply (clock_order_frame P w); auto. cbn. lia.
    - injection Ht as <-.
      apply (clock_order_one P w _ (row_of_message (user_turn P (hydrated w) v)));
        auto.
      cbn. lia.
    - injection Ht as <-.
      apply (clock_order_two P w _
               (row_of_message (user_turn P (hydrated w) v))
               (row_of_message a)); auto.
      cbn. lia. }
  destruct ((pathname req =? "/history") && (method req =? "GET"));
    [apply (clock_order_frame P w); auto|].
  destruct ((pathname req =? "/clear") && (method req =? "POST"));
    [|apply (clock_order_frame P w); auto].
  pose proof (handleClear_frame P (hydrated w)) as (Ht & _ & [Hr|Hr]).
  - apply (clock_order_frame P w); auto. rewrite Ht. cbn. lia.
  - now apply clock_order_empty.
Qed.

(** X19.  With a clock that never runs backwards, every request keeps the
    durable log in clock order, whatever it is and whatever fails in it:
    when the rows were inserted in timestamp order and none is later than
    the next reading of the clock, the same holds after the request.  So
    the order read by the hydration stays the insertion order. *)
Theorem requests_keep_clock_order (P : Platform) (req : Request) (w : World) :
  monotone_clock P ->
  log_in_clock_order P w ->
  log_in_clock_order P (snd (fetch P req w)).
Proof. apply fetch_keeps_clock_order. Qed.

Lemma requests_keep_clock_order_witness :
  log_in_clock_order (faulty 3) (snd (fetch (faulty 3) (send "Hello") woken)).
Proof.
  apply (requests_keep_clock_order (faulty 3) (send "Hello") woken).
  - intros i j Hij. cbn [faulty date_now]. lia.
  - split; [reflexivity|]. repeat constructor; cbn; lia.
Defined.

(** ** Conversations *)

(** X20.  Sends extend the conversation.  With a working storage and a
    clock that never runs backwards, when the durable log is in clock
    order, the history read after any list of well-formed sends is the
    stored messages in insertion order followed by the user and assistant
    message of each send, in call order. *)
Theorem sends_extend_the_history (P : Platform) (texts : list string)
        (w : World) :
  (forall k, sql_fault P k = None) ->
  monotone_clock P ->
  log_in_clock_order P w ->
  exists turns : list (Message * Message),
    Forall2 turn_of_text texts turns
    /\ Forall2 answers_with (fst (run P (map send texts) w)) turns
    /\ fst (fetch P history_request (snd (run P (map send texts) w)))
       = Returned (json_response 200 corsHeaders
                     (history_json
                        (map message_of_row (rows w) ++ log_of turns))).
Proof.
  intros Hf Hmono Hw.
  destruct (run_sends P texts Hf Hmono w Hw) as (turns & Ht & Ha & Hr & Ho & _).
  exists turns. split; [assumption|]. split; [assumption|].
  rewrite fetch_history by (try reflexivity; intros k _; apply Hf).
  cbn [fst]. unfold hydrated_cache. now rewrite Ho, Hr.
Qed.

Lemma sends_extend_the_history_witness :
  exists turns : list (Message * Message),
    Forall2 turn_of_text ["How are you?"] turns
    /\ Forall2 answers_with (fst (run calm (map send ["How are you?"]) woken))
         turns
    /\ fst (fetch calm history_request
              (snd (run calm (map send ["How are you?"]) woken)))
       = Returned (json_response 200 corsHeaders
                     (history_json
                        (map message_of_row (rows woken) ++ log_of turns))).
Proof.
  apply (sends_extend_the_history calm ["How are you?"] woken).
  - reflexivity.
  - intros i j Hij. cbn [calm date_now]. lia.
  - split; [reflexivity|]. repeat constructor; cbn; lia.
Defined.

(** X21.  A clear forgets everything.  With a working storage and a clock
    that never runs backwards, whatever the object and its storage held,
    the history read after a clear and any list of well-formed sends holds
    the messages of these sends only, user then assistant per send, in call
    order. *)
Theorem clear_forgets_everything (P : Platform) (texts : list string)
        (w : World) :
  (forall k, sql_fault P k = None) ->
  monotone_clock P ->
  exists turns : list (Message * Message),
    Forall2 turn_of_text texts turns
    /\ fst (fetch P history_request
              (snd (run P (clear_request :: map send texts) w)))
       = Returned (json_response 200 corsHeaders (history_json (log_of turns))).
Proof.
  intros Hf Hmono. cbn [run].
  rewrite (fetch_clear_ok P clear_request w)
    by (try reflexivity; intros k _; apply Hf).
  set (w1 := mkWorld _ _ _ _ _).
  assert (Hw1 : log_in_clock_order P w1) by now apply clock_order_empty.
  destruct (run_sends P texts Hf Hmono w1 Hw1)
    as (turns & Ht & _ & Hr & Ho & _).
  destruct (run P (map send texts) w1) as [os w2]. cbn [fst snd] in *.
  exists turns. split; [assumption|].
  rewrite fetch_history by (try reflexivity; intros k _; apply Hf).
  cbn [fst]. unfold hydrated_cache. now rewrite Ho, Hr.
Qed.

Lemma clear_forgets_everything_witness :
  exists turns : list (Message * Message),
    Forall2 turn_of_text ["How are you?"] turns
    /\ fst (fetch calm history_request
              (snd (run calm (clear_request :: map send ["How are you?"])
                      woken)))
       = Returned (json_response 200 corsHeaders (history_json (log_of turns))).
Proof.
  apply (clear_forgets_everything calm ["How are you?"] woken).
  - reflexivity.
  - intros i j Hij. cbn [calm date_now]. lia.
Defined.

(** ** The array and the log, after a request *)

(** A send whose assistant message could not be inserted. *)
Lemma fetch_assistant_insert_fault (P : Platform) (req : Request) (w : World)
      (s : string) (e : exn) :
  method req = "POST" ->
  pathname req = "/chat" ->
  request_json req = BodyValue (VString s) ->
  no_faults P w 3 ->
  sql_fault P (3 + execs w) = Some e ->
  fetch P req w
  = (Returned (json_response 500 corsHeaders (chat_failure e)),
     mkWorld
       (hydrated_cache w
        ++ [user_turn P w (VString s); assistant_turn P w (VString s)])
       (Some (rows w ++ [row_of_message (user_turn P w (VString s))]))
       (4 + execs w) (2 + ticks w)
       (ai_calls w ++ [context_sent P w (VString s)])).
Proof.
  intros Hm Hp Hb Hf He.
  assert (Hf2 : no_faults P w 2) by (intros k Hk; apply Hf; lia).
  pose proof (Hf 2 ltac:(lia)) as H2. simpl in H2, He.
  rewrite fetch_chat by assumption.
  unfold handleChat, try_catch. rewrite Hb.
  unfold bind at 1. unfold ret at 1.
  unfold bind at 1. unfold Date_now at 1.
  unfold bind at 1.
  rewrite (saveMessage_ok P _ (rows w)) by (world_simpl; auto).
  unfold bind at 1. rewrite generateAIResponse_eq.
  unfold bind at 1. unfold Date_now at 1.
  unfold bind at 1.
  rewrite saveMessage_fault with (e := e) by (world_simpl; assumption).
  cbn [ret messages table execs ticks ai_calls count_tick record_ai_call
         hydrated].
  unfold assistant_turn, context_sent, user_turn, row_of_message.
  cbn [role content timestamp text_of plus].
  rewrite <- app_assoc. reflexivity.
Qed.

(** C2, as the code has it.  A request counts here when it is answered
    with status 200 and, if it is a send, its body carries a string
    [message].  (1) After such a request the message array equals the
    durable log, in content and in insertion order, when the rows were in
    timestamp order as the request arrived.  (2) With a clock that never
    runs backwards and a log in clock order, the array then also equals the
    log as [ORDER BY timestamp] reads it.  (3) [saveMessage] pushes before
    it inserts: when the insert throws, the array already holds the new
    message and the table is unchanged.  (4) When the insert of the user
    message fails, the caller gets the failure envelope on status 500,
    never a success response, and the array is ahead of the log by that
    message.  (5) When the insert of the assistant message fails, the same
    envelope is returned and the array is ahead of the log by the assistant
    message. *)
Theorem cache_mirrors_log_after_success (P : Platform) :
  (forall (req : Request) (w w' : World) (resp : Response),
      fetch P req w = (Returned resp, w') ->
      status resp = 200%Z ->
      (is_chat req -> exists s : string, request_json req = BodyValue (VString s)) ->
      order_by_timestamp (rows w) = rows w ->
      messages w' = map message_of_row (rows w'))
  /\ (forall (req : Request) (w w' : World) (resp : Response),
         fetch P req w = (Returned resp, w') ->
         status resp = 200%Z ->
         (is_chat req ->
          exists s : string, request_json req = BodyValue (VString s)) ->
         monotone_clock P ->
         log_in_clock_order P w ->
         messages w' = map message_of_row (order_by_timestamp (rows w')))
  /\ (forall (m : Message) (w w' : World) (e : exn),
         saveMessage P m w = (Thrown e, w') ->
         messages w' = messages w ++ [m] /\ table w' = table w)
  /\ (forall (req : Request) (w : World) (s : string) (e : exn),
         method req = "POST" ->
         pathname req = "/chat" ->
         request_json req = BodyValue (VString s) ->
         no_faults P w 2 ->
         sql_fault P (2 + execs w) = Some e ->
         fst (fetch P req w)
         = Returned (json_response 500 corsHeaders (chat_failure e))
         /\ messages (snd (fetch P req w))
            = hydrated_cache w ++ [user_turn P w (VString s)]
         /\ rows (snd (fetch P req w)) = rows w)
  /\ (forall (req : Request) (w : World) (s : string) (e : exn),
         method req = "POST" ->
         pathname req = "/chat" ->
         request_json req = BodyValue (VString s) ->
         no_faults P w 3 ->
         sql_fault P (3 + execs w) = Some e ->
         fst (fetch P req w)
         = Returned (json_response 500 corsHeaders (chat_failure e))
         /\ messages (snd (fetch P req w))
            = hydrated_cache w
              ++ [user_turn P w (VString s); assistant_turn P w (VString s)]
         /\ rows (snd (fetch P req w))
            = rows w ++ [row_of_message (user_turn P w (VString s))]).
Proof.
  assert (H1 : forall (req : Request) (w w' : World) (resp : Response),
             fetch P req w = (Returned resp, w') ->
             status resp = 200%Z ->
             order_by_timestamp (rows w) = rows w ->
             messages w' = map message_of_row (rows w')).
  { intros req w w' resp Hfetch Hst Hord.
    unfold fetch in Hfetch.
    apply bind_returned in Hfetch as (u & w1 & Hi & Hroute).
    apply initializeDatabase_returned in Hi as [Hm Ht].
    assert (Hw1 : messages w1 = map message_of_row (rows w1)).
    { rewrite Hm. unfold hydrated_cache, rows at 2. now rewrite Ht, Hord. }
    destruct (method req =? "OPTIONS").
    { now injection Hroute as _ <-. }
    destruct ((pathname req =? "/chat") && (method req =? "POST")).
    { apply handleChat_200 in Hroute
        as (rs & u0 & a & Ht0 & Hm' & Ht' & Hu & Ha); [|assumption].
      unfold rows in *. rewrite Ht0 in Hw1. rewrite Hm', Ht', Hw1, map_app.
      simpl. now rewrite Hu, Ha. }
    destruct ((pathname req =? "/history") && (method req =? "GET")).
    { now injection Hroute as _ <-. }
    destruct ((pathname req =? "/clear") && (method req =? "POST")).
    { unfold handleClear, bind, sql_exec, modify, ret in Hroute.
      destruct (sql_fault P (execs w1)); [discriminate|].
      destruct (table w1); [|discriminate].
      injection Hroute as _ <-. reflexivity. }
    injection Hroute as <- _. discriminate. }
  split; [|split; [|split; [|split]]].
  - intros req w w' resp Hfetch Hst _ Hord. now apply (H1 req w w' resp).
  - intros req w w' resp Hfetch Hst _ Hmono Hw.
    pose proof (fetch_keeps_clock_order P req w Hmono Hw) as [Ho _].
    rewrite Hfetch in Ho. cbn [snd] in Ho. rewrite Ho.
    apply (H1 req w w' resp); try assumption. apply Hw.
  - intros m w w' e. apply saveMessage_thrown.
  - intros req w s e Hm Hp Hb Hf He.
    rewrite fetch_chat by assumption.
    erewrite handleChat_user_insert_thrown;
      [|exact Hb|apply saveMessage_fault; exact He].
    cbn. auto.
  - intros req w s e Hm Hp Hb Hf He.
    rewrite (fetch_assistant_insert_fault P req w s e) by assumption.
    cbn. auto.
Qed.

Lemma cache_mirrors_log_after_success_witness :
  messages (snd (fetch calm (send "Hello") woken))
  = map message_of_row (rows (snd (fetch calm (send "Hello") woken)))
  /\ messages (snd (fetch calm (send "Hello") woken))
     = map message_of_row
         (order_by_timestamp (rows (snd (fetch calm (send "Hello") woken))))
  /\ fst (fetch (faulty 2) (send "Hello") woken)
     = Returned (json_response 500 corsHeaders
                   (chat_failure (JsError "disk I/O error")))
  /\ fst (fetch (faulty 3) (send "Hello") woken)
     = Returned (json_response 500 corsHeaders
                   (chat_failure (JsError "disk I/O error"))).
Proof.
  split; [|split; [|split]].
  - destruct (cache_mirrors_log_after_success calm) as [H _].
    eapply (H (send "Hello") woken); try reflexivity.
    intros _. exists "Hello". reflexivity.
  - destruct (cache_mirrors_log_after_success calm) as (_ & H & _).
    eapply (H (send "Hello") woken); try reflexivity.
    + intros _. exists "Hello". reflexivity.
    + intros i j Hij. cbn [calm date_now]. lia.
    + split; [reflexivity|]. repeat constructor; cbn; lia.
  - destruct (cache_mirrors_log_after_success (faulty 2)) as (_ & _ & _ & H & _).
    apply (H (send "Hello") woken "Hello"); try reflexivity.
    intros k Hk. destruct k as [|[|k]]; [reflexivity|reflexivity|lia].
  - destruct (cache_mirrors_log_after_success (faulty 3)) as (_ & _ & _ & _ & H).
    apply (H (send "Hello") woken "Hello"); try reflexivity.
    intros k Hk. destruct k as [|[|[|k]]]; [reflexivity..|lia].
Defined.
